(** * easylens: the command line of [src/easylens/cli.py]

    A shallow embedding of [main] and [maincli]: the channel extraction
    loop, the layers handed to the plotting library, the output file name
    and the loop-carried locals ([channels], [cmaps], [channel]).

    The collaborators are kept at their interface:
    - the project reader (readlif) is a record of functions;
    - the plotting library (pyplot) is a trace of the calls made to it;
    - [str.format], [str.join], [range] and [pathlib] are written out as
      the functions on strings and lists that CPython 3.7 to 3.12
      computes. *)

From Stdlib Require Import List String Ascii ZArith QArith Lia Bool.
From Stdlib Require Import DecimalString DecimalPos DecimalZ.
Import ListNotations.

Set Implicit Arguments.

Local Open Scope string_scope.
Local Open Scope Z_scope.

(* ================================================================== *)
(** ** Exceptions and results *)

(** The exceptions [main] can meet.  [CollaboratorError] stands for
    whatever the reader raises when [get_image] is refused;
    [OutsideModel] marks a use of [str.format] replacement fields that
    this development does not interpret. *)
Inductive exn : Type :=
  | ValueError
  | IndexError
  | KeyError
  | UnboundLocalError
  | CollaboratorError
  | OutsideModel.

Inductive result (A : Type) : Type :=
  | Ok (a : A)
  | Raise (e : exn).

Arguments Ok {A} a.
Arguments Raise {A} e.

(** A Python value as far as the thresholds need it: argparse hands over
    either the integer default or the raw command-line token. *)
Inductive PyVal : Type :=
  | PyInt (z : Z)
  | PyStr (s : string).

(* ================================================================== *)
(** ** Python built-ins *)

Module Py.

(** [str(n)] for an [int]. *)
Definition str (n : Z) : string := NilZero.string_of_int (Z.to_int n).

(** [range(n)]. *)
Definition range (n : Z) : list Z := map Z.of_nat (seq 0 (Z.to_nat n)).

(** [sep.join(parts)]. *)
Definition join (sep : string) (parts : list string) : string :=
  String.concat sep parts.

(** [fmt.format] applied to [args], for format strings whose
    replacement fields are all the automatic [{}]; [{{] and [}}] are
    the escaped braces.  A field with a name, an index, a conversion
    or a format spec is answered with [OutsideModel]. *)
Fixpoint format (fmt : string) (args : list string) : result string :=
  match fmt with
  | EmptyString => Ok EmptyString
  | String c rest =>
      if Ascii.eqb c "{" then
        match rest with
        | EmptyString => Raise ValueError
        | String d rest' =>
            if Ascii.eqb d "{" then
              match format rest' args with
              | Ok s => Ok (String "{" s)
              | Raise e => Raise e
              end
            else if Ascii.eqb d "}" then
              match args with
              | [] => Raise IndexError
              | a :: args' =>
                  match format rest' args' with
                  | Ok s => Ok (a ++ s)
                  | Raise e => Raise e
                  end
              end
            else Raise OutsideModel
        end
      else if Ascii.eqb c "}" then
        match rest with
        | String d rest' =>
            if Ascii.eqb d "}" then
              match format rest' args with
              | Ok s => Ok (String "}" s)
              | Raise e => Raise e
              end
            else Raise ValueError
        | EmptyString => Raise ValueError
        end
      else
        match format rest args with
        | Ok s => Ok (String c s)
        | Raise e => Raise e
        end
  end.

(** [s.split(sep)] for a one-character separator. *)
Fixpoint split (sep : ascii) (s : string) : list string :=
  match s with
  | EmptyString => [EmptyString]
  | String c rest =>
      if Ascii.eqb c sep then EmptyString :: split sep rest
      else
        match split sep rest with
        | [] => [String c EmptyString]
        | h :: t => String c h :: t
        end
  end.

(** [s.rfind(ch)], [None] for Python's -1. *)
Fixpoint rfind (ch : ascii) (s : string) : option nat :=
  match s with
  | EmptyString => None
  | String c rest =>
      match rfind ch rest with
      | Some i => Some (S i)
      | None => if Ascii.eqb c ch then Some O else None
      end
  end.

(** [s[:n]] and [s[n:]] for [0 <= n]. *)
Definition take (n : nat) (s : string) : string := String.substring 0 n s.
Definition drop (n : nat) (s : string) : string :=
  String.substring n (String.length s - n) s.

(** [s.endswith(t)] for a one-character [t]. *)
Fixpoint ends_with (ch : ascii) (s : string) : bool :=
  match s with
  | EmptyString => false
  | String c EmptyString => Ascii.eqb c ch
  | String _ rest => ends_with ch rest
  end.

End Py.

(* ================================================================== *)
(** ** pathlib, POSIX flavour *)

Module Pathlib.

(** A parsed pure path: the root (empty, [/] or [//]) and the
    components that remain once empty and [.] components are dropped. *)
Record path : Type := { root : string; parts : list string }.

(** [p[n:n+1] == '/']. *)
Definition sep_at (n : nat) (p : string) : bool :=
  match String.get n p with
  | Some c => Ascii.eqb c "/"
  | None => false
  end.

(** [posixpath.splitroot]: no root, the root [/] (one slash, or three
    and more), or the root [//] (exactly two). *)
Definition splitroot (p : string) : string * string :=
  if negb (sep_at 0 p) then ("", p)
  else if (negb (sep_at 1 p) || sep_at 2 p)%bool then ("/", Py.drop 1 p)
  else ("//", Py.drop 2 p).

Definition keep_part (x : string) : bool :=
  negb (String.eqb x "") && negb (String.eqb x ".").

(** [Path(s)]. *)
Definition Path (s : string) : path :=
  let (r, rel) := splitroot s in
  {| root := r; parts := filter keep_part (Py.split "/" rel) |}.

(** [posixpath.join(a, b)]. *)
Definition os_path_join (a b : string) : string :=
  if sep_at 0 b then b
  else if (String.eqb a "" || Py.ends_with "/" a)%bool then a ++ b
  else a ++ "/" ++ b.

(** [Path(a, b)]. *)
Definition Path2 (a b : string) : path := Path (os_path_join a b).

(** [os.fspath(p)], which is [str(p)]. *)
Definition fspath (p : path) : string :=
  let s := root p ++ Py.join "/" (parts p) in
  if String.eqb s "" then "." else s.

(** [p.name]. *)
Definition name (p : path) : string := last (parts p) "".

(** The position of the dot that starts the suffix of a file name:
    [i = name.rfind('.')] when [0 < i < len(name) - 1]. *)
Definition suffix_start (nm : string) : option nat :=
  match Py.rfind "." nm with
  | Some i =>
      if ((0 <? i)%nat && (i <? String.length nm - 1)%nat)%bool
      then Some i else None
  | None => None
  end.

(** [p.suffix]. *)
Definition suffix (p : path) : string :=
  match suffix_start (name p) with
  | Some i => Py.drop i (name p)
  | None => ""
  end.

(** [p.stem]. *)
Definition stem (p : path) : string :=
  match suffix_start (name p) with
  | Some i => Py.take i (name p)
  | None => name p
  end.

(** [p.with_suffix('.png')]: the suffix argument is the literal of the
    call, so only the empty-name test of [with_suffix] can fail. *)
Definition with_suffix_png (p : path) : result path :=
  let nm := name p in
  if String.eqb nm "" then Raise ValueError
  else
    let nm' :=
      match suffix_start nm with
      | Some i => Py.take i nm ++ ".png"
      | None => nm ++ ".png"
      end in
    Ok {| root := root p; parts := removelast (parts p) ++ [nm'] |}.

End Pathlib.

(* ================================================================== *)
(** ** The project reader *)

(** A decoded frame, [np.array(img_channel)]: rows of samples. *)
Definition PixelArray : Type := list (list Z).

(** [a.shape] for a two-dimensional array: (rows, columns). *)
Definition shape (a : PixelArray) : nat * nat :=
  (List.length a, List.length (hd [] a)).

(** [np.full(shape, v)]. *)
Definition np_full (sh : nat * nat) (v : Z) : PixelArray :=
  repeat (repeat v (snd sh)) (fst sh).

Module Readlif.

(** One image of a project: the channel count its metadata reports and
    [get_frame(z, t, c)], [None] when the reader raises [ValueError]. *)
Record Image : Type := {
  channels : Z;
  get_frame : Z -> Z -> Z -> option PixelArray
}.

(** [LifFile(lif)]: [get_image(i)] is [None] when the reader refuses
    the index. *)
Record LifFile : Type := {
  num_images : Z;
  get_image : Z -> option Image
}.

End Readlif.

(* ================================================================== *)
(** ** Colour maps and the calls made to the plotting library *)

(** [LinearSegmentedColormap.from_list(name, colors)]. *)
Record colormap : Type := { cm_name : string; cm_colors : list string }.

Definition from_list (name : string) (colors : list string) : colormap :=
  {| cm_name := name; cm_colors := colors |}.

Definition cmap_bf      := from_list "mycmap" ["black"; "white"].
Definition cmap_cyan    := from_list "mycmap" ["black"; "cyan"].
Definition cmap_dapi    := from_list "mycmap" ["black"; "blue"].
Definition cmap_green   := from_list "mycmap" ["black"; "lime"].
Definition cmap_magenta := from_list "mycmap" ["black"; "magenta"].
Definition cmap_orange  := from_list "mycmap" ["black"; "orange"].
Definition cmap_red     := from_list "mycmap" ["black"; "red"].
Definition cmap_yellow  := from_list "mycmap" ["black"; "yellow"].

(** The dictionary [LUT], in insertion order. *)
Definition LUT : list (string * colormap) :=
  [ ("bf", cmap_bf);
    ("dapi", cmap_dapi);
    ("red", cmap_red);
    ("cyan", cmap_cyan);
    ("green", cmap_green);
    ("magenta", cmap_magenta);
    ("orange", cmap_orange);
    ("yellow", cmap_yellow);
    ("blue", cmap_dapi) ].

(** [list(LUT.keys())]. *)
Definition LUT_keys : list string := map fst LUT.

(** [LUT[k]], [None] for [KeyError]. *)
Fixpoint dict_get (d : list (string * colormap)) (k : string) : option colormap :=
  match d with
  | [] => None
  | (k', v) :: d' => if String.eqb k k' then Some v else dict_get d' k
  end.

(** The arguments of one [plt.imshow] call; [alpha] is [None] when the
    call does not pass it. *)
Record layer : Type := {
  X : PixelArray;
  cmap : colormap;
  vmin : PyVal;
  vmax : PyVal;
  alpha : option Q
}.

Inductive event : Type :=
  | get_frame_call (i z t c : Z)
  | print (line : string)
  | figure (figsize : Q * Q) (dpi : Z)
  | imshow (l : layer)
  | axis_off
  | subplots_adjust (left right top bottom : Z)
  | savefig (fname : string) (dpi : Z) (transparent : bool)
  | close.

(* ================================================================== *)
(** ** Effects: a trace of calls and a possible exception *)

Definition M (A : Type) : Type := list event * result A.

Definition ret {A} (a : A) : M A := ([], Ok a).

Definition bind {A B} (m : M A) (k : A -> M B) : M B :=
  match m with
  | (t, Ok a) => let (t', r) := k a in ((t ++ t')%list, r)
  | (t, Raise e) => (t, Raise e)
  end.

Definition emit (e : event) : M unit := ([e], Ok tt).

Definition raise {A} (e : exn) : M A := ([], Raise e).

Definition lift {A} (r : result A) : M A := ([], r).

Declare Scope py_scope.
Delimit Scope py_scope with py.
Notation "x <- m ;; k" := (bind m (fun x => k))
  (at level 61, m at next level, right associativity) : py_scope.
Notation "m ;; k" := (bind m (fun _ => k))
  (at level 61, right associativity) : py_scope.

(* ================================================================== *)
(** ** argparse: the two threshold options *)

(** What [ap.add_argument] records for an option that stores one value:
    the converter passed as [type=] ([None] when the declaration has no
    [type=]) and the default. *)
Record option_decl : Type := {
  opt_flags : list string;
  opt_type : option (string -> result PyVal);
  opt_default : PyVal
}.

Definition low_threshold_decl : option_decl :=
  {| opt_flags := ["-lt"; "--low-threshold"];
     opt_type := None;
     opt_default := PyInt 0 |}.

Definition high_threshold_decl : option_decl :=
  {| opt_flags := ["-ht"; "--high-threshold"];
     opt_type := None;
     opt_default := PyInt 4095 |}.

(** The value argparse stores: the default when the flag is absent, the
    converted token when a converter was declared, the token itself
    otherwise. *)
Definition get_value (d : option_decl) (tok : option string) : result PyVal :=
  match tok with
  | None => Ok (opt_default d)
  | Some s =>
      match opt_type d with
      | None => Ok (PyStr s)
      | Some conv => conv s
      end
  end.

(** The command line after tokenisation.  The options declared with
    [type=int] are given converted; the thresholds are given as the
    tokens typed. *)
Record argv : Type := {
  a_lif : string;
  a_indexes : option (list Z);
  a_channels : option (list Z);
  a_zindex : option Z;
  a_lut : option (list string);
  a_low_threshold : option string;
  a_high_threshold : option string;
  a_output : option string
}.

(** The namespace [ap.parse_args()] returns. *)
Record namespace : Type := {
  lif : string;
  indexes : option (list Z);
  channels : option (list Z);
  zindex : Z;
  cmaps : option (list string);
  low_threshold : PyVal;
  high_threshold : PyVal;
  output : option string
}.

Definition is_key (k : string) : bool :=
  match dict_get LUT k with Some _ => true | None => false end.

(** [ap.parse_args()]; [None] when argparse exits with a usage error
    (an empty [nargs='+'] list, a [--lut] name outside the choices). *)
Definition parse_args (a : argv) : option namespace :=
  let nonempty {A} (o : option (list A)) :=
    match o with Some [] => false | _ => true end in
  let lut_ok := match a_lut a with Some l => forallb is_key l | None => true end in
  if (nonempty (a_indexes a) && nonempty (a_channels a)
      && nonempty (a_lut a) && lut_ok)%bool then
    match get_value low_threshold_decl (a_low_threshold a),
          get_value high_threshold_decl (a_high_threshold a) with
    | Ok lo, Ok hi =>
        Some {| lif := a_lif a;
                indexes := a_indexes a;
                channels := a_channels a;
                zindex := match a_zindex a with Some z => z | None => 0 end;
                cmaps := a_lut a;
                low_threshold := lo;
                high_threshold := hi;
                output := a_output a |}
    | _, _ => None
    end
  else None.

(* ================================================================== *)
(** ** [main] *)

(** The locals of [main] that the loop over the images rebinds and that
    therefore carry over from one image to the next: [channels] and
    [cmaps] ([None] while still the [None] default), and the inner loop
    variable [channel] ([None] while unbound). *)
Record locals : Type := {
  v_channels : option (list Z);
  v_cmaps : option (list string);
  v_channel : option Z
}.

(** The inner loop: [for channel in channels: try ... get_frame ...
    except ValueError: break; else: pix_arrays.append(...)].  Returns the
    calls made, the last binding of [channel] and [pix_arrays]. *)
Fixpoint extract (img : Readlif.Image) (i zindex : Z) (chans : list Z)
    (channel : option Z) (pix_arrays : list PixelArray)
    : list event * (option Z * list PixelArray) :=
  match chans with
  | [] => ([], (channel, pix_arrays))
  | c :: rest =>
      match Readlif.get_frame img zindex 0 c with
      | None => ([get_frame_call i zindex 0 c], (Some c, pix_arrays))
      | Some img_channel =>
          let (t, r) := extract img i zindex rest (Some c)
                          (pix_arrays ++ [img_channel])%list in
          (get_frame_call i zindex 0 c :: t, r)
      end
  end.

(** [(pix_arrays[0].shape[1] / 1000, pix_arrays[0].shape[0] / 1000)]. *)
Definition fig_size (first : PixelArray) : Q * Q :=
  ((Z.of_nat (snd (shape first)) # 1000)%Q,
   (Z.of_nat (fst (shape first)) # 1000)%Q).

(** The layer of [plt.imshow(black_background, vmin=0, vmax=1,
    cmap=cmap_bf)] with [black_background = np.full(shape, 1)]. *)
Definition black_background (first : PixelArray) : PixelArray :=
  np_full (shape first) 1.

Definition background_layer (first : PixelArray) : layer :=
  {| X := black_background first;
     cmap := cmap_bf;
     vmin := PyInt 0;
     vmax := PyInt 1;
     alpha := None |}.

(** [alpha = 0.5 if len(pix_arrays) > 1 else 1]. *)
Definition alpha_of (pix_arrays : list PixelArray) : Q :=
  if (1 <? List.length pix_arrays)%nat then (1 # 2)%Q else 1%Q.

(** [for cmap, pix_array in zip(cmaps, pix_arrays): plt.imshow(...)]. *)
Fixpoint paint (pairs : list (string * PixelArray)) (lo hi : PyVal) (a : Q)
    : M unit :=
  match pairs with
  | [] => ret tt
  | (cm, pix_array) :: rest =>
      match dict_get LUT cm with
      | None => raise KeyError
      | Some m =>
          (emit (imshow {| X := pix_array; cmap := m; vmin := lo;
                           vmax := hi; alpha := Some a |}) ;;
           paint rest lo hi a)%py
      end
  end.

(** Lines 173 to 190: the figure, the background, the channel layers
    and the removal of the axes, for a non-empty [pix_arrays] whose
    first element is [first]. *)
Definition composite (cms : list string) (first : PixelArray)
    (pix_arrays : list PixelArray) (lo hi : PyVal) : M unit :=
  (emit (figure (fig_size first) 100) ;;
   emit (imshow (background_layer first)) ;;
   paint (combine cms pix_arrays) lo hi (alpha_of pix_arrays) ;;
   emit axis_off ;;
   emit (subplots_adjust 0 1 1 0))%py.

(** [channels = range(img.channels) if channels is None else channels]. *)
Definition resolve_channels (st : locals) (img : Readlif.Image) : list Z :=
  match v_channels st with
  | None => Py.range (Readlif.channels img)
  | Some cs => cs
  end.

(** [cmaps = list(LUT.keys()) if cmaps is None else cmaps]. *)
Definition resolve_cmaps (st : locals) : list string :=
  match v_cmaps st with
  | None => LUT_keys
  | Some l => l
  end.

Definition warning (channel i : Z) : string :=
  "> warning: channels " ++ Py.str channel
    ++ " does not exist for index " ++ Py.str i ++ " - skiping".

Section Main.

(** [Path(p).is_dir()] on the file system of the run, asked about the
    string form of the path. *)
Variable is_dir : string -> bool.

(** [project = LifFile(lif)]. *)
Variable project : Readlif.LifFile.

(** The three ways [output_fmt] is built. *)
Definition output_fmt (lif : string) (output : option string) : string :=
  match output with
  | None => Pathlib.stem (Pathlib.Path lif) ++ "_i{}_z{}_c{}"
  | Some o =>
      if is_dir (Pathlib.fspath (Pathlib.Path o))
      then Pathlib.fspath (Pathlib.Path2 o "i{}_z{}_c{}")
      else o ++ "_i{}_z{}_c{}"
  end.

(** [Path(output_fmt.format(i, zindex, '-'.join(map(str, channels))))
    .with_suffix('.png')], as the string passed on. *)
Definition fname_of (fmt : string) (i zindex : Z) (chans : list Z)
    : result string :=
  match Py.format fmt [Py.str i; Py.str zindex;
                       Py.join "-" (map Py.str chans)] with
  | Raise e => Raise e
  | Ok _fname =>
      match Pathlib.with_suffix_png (Pathlib.Path _fname) with
      | Raise e => Raise e
      | Ok fname => Ok (Pathlib.fspath fname)
      end
  end.

(** The body of [for i in indexes]. *)
Definition iteration (fmt : string) (zindex : Z) (lo hi : PyVal)
    (st : locals) (i : Z) : M locals :=
  match Readlif.get_image project i with
  | None => raise CollaboratorError
  | Some img =>
      let chans := resolve_channels st img in
      let '(t, (channel, pix_arrays)) :=
        extract img i zindex chans (v_channel st) [] in
      (_ <- (t, Ok tt) ;;
       match pix_arrays with
       | [] =>
           (* pix_arrays[0] raises IndexError, which is caught *)
           match channel with
           | None => raise UnboundLocalError
           | Some c =>
               emit (print (warning c i)) ;;
               ret {| v_channels := Some chans;
                      v_cmaps := v_cmaps st;
                      v_channel := channel |}
           end
       | first :: _ =>
           let cms := resolve_cmaps st in
           composite cms first pix_arrays lo hi ;;
           fname <- lift (fname_of fmt i zindex chans) ;;
           emit (savefig fname 1000 true) ;;
           emit (print ("> saved: " ++ fname)) ;;
           emit close ;;
           ret {| v_channels := Some chans;
                  v_cmaps := Some cms;
                  v_channel := channel |}
       end)%py
  end.

(** [for i in indexes: ...]. *)
Fixpoint loop (fmt : string) (zindex : Z) (lo hi : PyVal)
    (st : locals) (idx : list Z) : M locals :=
  match idx with
  | [] => ret st
  | i :: rest =>
      (st' <- iteration fmt zindex lo hi st i ;;
       loop fmt zindex lo hi st' rest)%py
  end.

(** [main]: the format of the file names, the indexes, then the loop. *)
Definition main (lif : string) (indexes channels : option (list Z))
    (zindex : Z) (cmaps : option (list string))
    (low_threshold high_threshold : PyVal) (output : option string)
    : M unit :=
  let fmt := output_fmt lif output in
  let idx :=
    match indexes with
    | None => Py.range (Readlif.num_images project)
    | Some l => l
    end in
  (_ <- loop fmt zindex low_threshold high_threshold
          {| v_channels := channels; v_cmaps := cmaps; v_channel := None |}
          idx ;;
   ret tt)%py.

(** [maincli]: [None] when argparse exits before [main] is called. *)
Definition maincli (a : argv) : option (M unit) :=
  match parse_args a with
  | None => None
  | Some cmd =>
      Some (main (lif cmd) (indexes cmd) (channels cmd) (zindex cmd)
              (cmaps cmd) (low_threshold cmd) (high_threshold cmd)
              (output cmd))
  end.

End Main.

(* ================================================================== *)
(** ** Reading a trace *)

Definition imshow_of (e : event) : option layer :=
  match e with imshow l => Some l | _ => None end.

Definition savefig_of (e : event) : option string :=
  match e with savefig f _ _ => Some f | _ => None end.

Definition print_of (e : event) : option string :=
  match e with print s => Some s | _ => None end.

Definition frame_of (e : event) : option (Z * Z) :=
  match e with get_frame_call i _ _ c => Some (i, c) | _ => None end.

Fixpoint collect {A B} (f : A -> option B) (l : list A) : list B :=
  match l with
  | [] => []
  | a :: l' =>
      match f a with
      | Some b => b :: collect f l'
      | None => collect f l'
      end
  end.

Definition figure_of (e : event) : option (Q * Q) :=
  match e with figure sz _ => Some sz | _ => None end.

Definition close_of (e : event) : option unit :=
  match e with close => Some tt | _ => None end.

Definition slice_of (e : event) : option (Z * Z) :=
  match e with get_frame_call _ z t _ => Some (z, t) | _ => None end.

(** The figures opened and closed, and the (z, t) pairs asked of the
    reader, in order. *)
Definition figures (t : list event) : list (Q * Q) := collect figure_of t.
Definition closes (t : list event) : list unit := collect close_of t.
Definition slices (t : list event) : list (Z * Z) := collect slice_of t.

(** The layers painted, the files saved, the lines printed and the
    (image, channel) pairs fetched, in order. *)
Definition layers (t : list event) : list layer := collect imshow_of t.
Definition saved (t : list event) : list string := collect savefig_of t.
Definition printed (t : list event) : list string := collect print_of t.
Definition fetched (t : list event) : list (Z * Z) := collect frame_of t.

(** The calls after the composite, lines 192 to 197: the file is saved
    and reported when its name could be built. *)
Definition save_events (fmt : string) (zindex i : Z) (chans : list Z)
    : list event :=
  match fname_of fmt i zindex chans with
  | Ok fname => [savefig fname 1000 true; print ("> saved: " ++ fname); close]
  | Raise _ => []
  end.

(* ================================================================== *)
(** ** The file name the specification describes *)

(** The reference definition of the output path for a prefix (the stem of
    the project file, or an [--output] string that is no directory), in
    the specification's words: the prefix, then [_i], [_z], [_c] with
    the image index, the z index and the hyphen-joined channel ids, then
    [.png]. *)
Definition resolveOutputPath_reference (prefix : string) (i zindex : Z)
    (chans : list Z) : string :=
  prefix ++ "_i" ++ Py.str i ++ "_z" ++ Py.str zindex
    ++ "_c" ++ Py.join "-" (map Py.str chans) ++ ".png".

(* ================================================================== *)
(** ** The colour a sample is shown in *)

(** Modelled from the spec: the value-to-colour bounds of the plotting
    library, which is no code of this repository.  Values at or below
    [lo] sit at position 0 of the colour map, values at or above [hi]
    at position 1, the values between them in proportion. *)
Definition normalize (lo hi v : Q) : Q :=
  if Qle_bool v lo then 0%Q
  else if Qle_bool hi v then 1%Q
  else ((v - lo) / (hi - lo))%Q.

(** The colour names at the two ends of a colour map built by
    [from_list]: position 0 is the first colour, position 1 the last. *)
Definition zero_colour (m : colormap) : option string := hd_error (cm_colors m).
Definition full_colour (m : colormap) : option string :=
  hd_error (rev (cm_colors m)).

(** The end of the colour map a sample lands on, when it lands on one. *)
Definition end_colour (m : colormap) (pos : Q) : option string :=
  if Qeq_bool pos 0 then zero_colour m
  else if Qeq_bool pos 1 then full_colour m
  else None.

Definition bound (v : PyVal) : option Q :=
  match v with
  | PyInt z => Some (inject_Z z)
  | PyStr _ => None
  end.

(** The colour of sample [v] in layer [l], when both bounds are numbers
    and the sample lands on an end of the map. *)
Definition rendered (l : layer) (v : Z) : option string :=
  match bound (vmin l), bound (vmax l) with
  | Some lo, Some hi => end_colour (cmap l) (normalize lo hi (inject_Z v))
  | _, _ => None
  end.

(* ================================================================== *)
(** ** Predicates on layers and locals *)


(** Two states of the locals from which the images of [idx] are
    processed alike: the same binding of [channel], the same colour map
    names once defaulted, and the same channel list once defaulted for
    the image processed next. *)
Definition alike (project : Readlif.LifFile) (idx : list Z)
    (st1 st2 : locals) : Prop :=
  v_channel st1 = v_channel st2
  /\ resolve_cmaps st1 = resolve_cmaps st2
  /\ forall i rest img,
       idx = i :: rest ->
       Readlif.get_image project i = Some img ->
       resolve_channels st1 img = resolve_channels st2 img.

(* ================================================================== *)
(** ** Plain prefixes *)

Fixpoint all_chars (P : ascii -> bool) (s : string) : bool :=
  match s with
  | EmptyString => true
  | String c r => (P c && all_chars P r)%bool
  end.

(** A character that neither [str.format] nor [pathlib] gives a meaning
    to: no dot, no slash, no brace. *)
Definition plain (c : ascii) : bool :=
  (negb (Ascii.eqb c ".") && negb (Ascii.eqb c "/")
   && negb (Ascii.eqb c "{") && negb (Ascii.eqb c "}"))%bool.


(** Two projects that hold the same images and frames and differ at most
    in the channel counts the images report. *)
Definition same_frames (p1 p2 : Readlif.LifFile) : Prop :=
  Readlif.num_images p1 = Readlif.num_images p2
  /\ forall i : Z,
       match Readlif.get_image p1 i, Readlif.get_image p2 i with
       | Some a, Some b =>
           forall z t c, Readlif.get_frame a z t c = Readlif.get_frame b z t c
       | None, None => True
       | _, _ => False
       end.

(* ================================================================== *)
(** ** Sample projects *)

Definition sample_frame (c : Z) : PixelArray := [[c; c + 1]; [c + 2; c + 3]].

(** An image that reports [n] channels and holds a frame for each of the
    channels [0 .. n-1], at every z. *)
Definition sample_image (n : Z) : Readlif.Image :=
  {| Readlif.channels := n;
     Readlif.get_frame := fun _ _ c =>
       if ((0 <=? c) && (c <? n))%bool then Some (sample_frame c) else None |}.

(** A project with one image per entry of [counts]. *)
Definition sample_project (counts : list Z) : Readlif.LifFile :=
  {| Readlif.num_images := Z.of_nat (List.length counts);
     Readlif.get_image := fun i =>
       if 0 <=? i then option_map sample_image (nth_error counts (Z.to_nat i))
       else None |}.

(** A file system without directories. *)
Definition no_dir (_ : string) : bool := false.

Example str_ex : Py.str 12 = "12" /\ Py.str 0 = "0" /\ Py.str (-3) = "-3".
Proof. repeat split; reflexivity. Qed.

Example format_ex :
  Py.format "p_i{}_z{}_c{}" ["1"; "0"; "0-1"] = Ok "p_i1_z0_c0-1".
Proof. reflexivity. Qed.

Example path_ex :
  Pathlib.fspath (Pathlib.Path "a//b/./c.tar.gz") = "a/b/c.tar.gz"
  /\ Pathlib.stem (Pathlib.Path "/x/project.lif") = "project"
  /\ Pathlib.stem (Pathlib.Path ".hidden") = ".hidden"
  /\ Pathlib.stem (Pathlib.Path "trail.") = "trail."
  /\ Pathlib.fspath (Pathlib.Path "//x//y/") = "//x/y"
  /\ Pathlib.fspath (Pathlib.Path "///x") = "/x"
  /\ Pathlib.fspath (Pathlib.Path "") = "."
  /\ Pathlib.fspath (Pathlib.Path2 "out/" "i{}_z{}_c{}") = "out/i{}_z{}_c{}"
  /\ Pathlib.fspath (Pathlib.Path2 "./out" "i{}_z{}_c{}") = "out/i{}_z{}_c{}"
  /\ option_map Pathlib.fspath
       (match Pathlib.with_suffix_png (Pathlib.Path "/d.x/a.b.c") with
        | Ok q => Some q
        | Raise _ => None
        end) = Some "/d.x/a.b.png".
Proof. repeat split; reflexivity. Qed.

(* ================================================================== *)
(** * Properties *)

(** ** Traces *)

Lemma collect_app {A B} (f : A -> option B) (l1 l2 : list A) :
  collect f (l1 ++ l2)%list = (collect f l1 ++ collect f l2)%list.
Proof.
  induction l1 as [|a l1 IH]; simpl; [reflexivity|].
  destruct (f a); simpl; now rewrite IH.
Qed.

Lemma fst_bind {A B} (m : M A) (k : A -> M B) :
  fst (bind m k) =
  (fst m ++ match snd m with Ok a => fst (k a) | Raise _ => [] end)%list.
Proof.
  destruct m as [t [a|e]]; simpl.
  - destruct (k a); reflexivity.
  - now rewrite app_nil_r.
Qed.

Lemma snd_bind {A B} (m : M A) (k : A -> M B) :
  snd (bind m k) =
  match snd m with Ok a => snd (k a) | Raise e => Raise e end.
Proof.
  destruct m as [t [a|e]]; simpl; [destruct (k a)|]; reflexivity.
Qed.

Lemma bind_Ok {A B} (t : list event) (a : A) (k : A -> M B) :
  bind (t, Ok a) k = ((t ++ fst (k a))%list, snd (k a)).
Proof. simpl. now destruct (k a). Qed.

Lemma bind_Raise {A B} (t : list event) (e : exn) (k : A -> M B) :
  bind (t, Raise e) k = (t, Raise e).
Proof. reflexivity. Qed.

(** ** Extraction *)

Lemma last_nonempty {A} (x : A) (l : list A) (d d' : A) :
  last (x :: l) d = last (x :: l) d'.
Proof.
  revert x. induction l as [|y l IH]; intros x; [reflexivity|].
  change (last (y :: l) d = last (y :: l) d'). apply IH.
Qed.

Section Extraction.

Variable img : Readlif.Image.
Variables i zindex : Z.

Let fetch (c : Z) : option PixelArray := Readlif.get_frame img zindex 0 c.

(** The accumulator of [extract] only ever grows at its end, and the
    calls made do not depend on it. *)
Lemma extract_acc (chans : list Z) :
  forall channel acc,
    extract img i zindex chans channel acc
    = let r := extract img i zindex chans channel [] in
      (fst r, (fst (snd r), (acc ++ snd (snd r))%list)).
Proof.
  induction chans as [|c rest IH]; intros channel acc; simpl.
  - now rewrite app_nil_r.
  - destruct (Readlif.get_frame img zindex 0 c) as [f|]; simpl.
    + rewrite (IH (Some c) (acc ++ [f])%list), (IH (Some c) [f]).
      destruct (extract img i zindex rest (Some c) []) as [t [ch p]].
      simpl. now rewrite <- app_assoc.
    + now rewrite app_nil_r.
Qed.

(** What the inner loop does, read off the list of requested channels:
    it calls [get_frame] on the first [n] channels, which all succeed,
    and, unless the list is exhausted, once more on channel [n], which
    fails; nothing after that channel is fetched. *)
Lemma extract_spec (chans : list Z) :
  forall channel,
  exists n : nat,
    (n <= List.length chans)%nat
    /\ map Some (snd (snd (extract img i zindex chans channel [])))
       = map fetch (firstn n chans)
    /\ (n = List.length chans
        \/ exists c, nth_error chans n = Some c /\ fetch c = None)
    /\ fst (extract img i zindex chans channel [])
       = map (get_frame_call i zindex 0) (firstn (S n) chans)
    /\ fst (snd (extract img i zindex chans channel []))
       = last (map Some (firstn (S n) chans)) channel.
Proof.
  induction chans as [|c rest IH]; intros channel.
  - exists O. simpl. repeat split; auto.
  - cbn [extract]. fold (fetch c).
    destruct (fetch c) as [f|] eqn:Hc.
    + destruct (IH (Some c)) as (n & Hn & Hpix & Hstop & Hcalls & Hch).
      rewrite (extract_acc rest (Some c) ([] ++ [f])).
      destruct (extract img i zindex rest (Some c) []) as [t [ch p]].
      cbn [fst snd] in *. exists (S n).
      rewrite !firstn_cons. cbn [map List.length nth_error app].
      rewrite Hc, Hpix, Hcalls, Hch.
      repeat split.
      * lia.
      * destruct Hstop as [->|Hstop]; [now left|right; exact Hstop].
      * destruct (firstn (S n) rest) as [|z l]; [reflexivity|].
        cbn [map]. rewrite (last_nonempty _ _ channel (Some c)).
        reflexivity.
    + exists O. cbn [fst snd firstn map List.length nth_error last].
      repeat split; auto.
      * lia.
      * right. exists c. now split.
Qed.

End Extraction.

(** C1: the inner loop calls [get_frame] on the requested channels in the
    order listed; [n] channels succeed, and either the list is exhausted
    or channel number [n] of the list fails and no later channel is
    fetched.  The pixel arrays are the frames of exactly those first [n]
    channels, in that order. *)
Theorem C1_extraction_is_the_successful_prefix :
  forall (img : Readlif.Image) (i zindex : Z) (chans : list Z)
         (channel : option Z),
  exists n : nat,
    (n <= List.length chans)%nat
    /\ map Some (snd (snd (extract img i zindex chans channel [])))
       = map (Readlif.get_frame img zindex 0) (firstn n chans)
    /\ (n = List.length chans
        \/ exists c, nth_error chans n = Some c
                     /\ Readlif.get_frame img zindex 0 c = None)
    /\ fst (extract img i zindex chans channel [])
       = map (get_frame_call i zindex 0) (firstn (S n) chans).
Proof.
  intros img i zindex chans channel.
  destruct (extract_spec img i zindex chans channel)
    as (n & Hn & Hpix & Hstop & Hcalls & _).
  exists n. repeat split; assumption.
Qed.

(** ** An image without pixel arrays *)

Lemma range_nonpositive (n : Z) : n <= 0 -> Py.range n = [].
Proof.
  intros H. unfold Py.range.
  replace (Z.to_nat n) with O by lia. reflexivity.
Qed.

(** When the first requested channel cannot be fetched, the image is
    skipped with a warning that names that channel and the image, and
    the loop goes on with the locals kept. *)
Lemma iteration_first_fetch_fails (project : Readlif.LifFile)
    (fmt : string) (zindex : Z) (lo hi : PyVal) (st : locals) (i : Z)
    (img : Readlif.Image) (c : Z) (cs : list Z) :
  Readlif.get_image project i = Some img ->
  resolve_channels st img = c :: cs ->
  Readlif.get_frame img zindex 0 c = None ->
  iteration project fmt zindex lo hi st i
  = ([get_frame_call i zindex 0 c; print (warning c i)],
     Ok {| v_channels := Some (c :: cs);
           v_cmaps := v_cmaps st;
           v_channel := Some c |}).
Proof.
  intros Himg Hch Hc. unfold iteration.
  rewrite Himg, Hch. cbn [extract]. rewrite Hc. reflexivity.
Qed.

(** C2: when the image reports no channel, the list of requested channels
    is empty, the inner loop never binds [channel], and the handler of
    the [IndexError] fails on the unbound name: the run stops with
    [UnboundLocalError] at the first image, nothing is printed and the
    remaining images are not processed. *)
Theorem C2_zero_channels_aborts_the_run :
  forall (is_dir : string -> bool) (project : Readlif.LifFile)
         (lif : string) (i : Z) (rest : list Z) (img : Readlif.Image)
         (zindex : Z) (cmaps : option (list string)) (lo hi : PyVal)
         (output : option string),
    Readlif.get_image project i = Some img ->
    Readlif.channels img <= 0 ->
    main is_dir project lif (Some (i :: rest)) None zindex cmaps lo hi output
    = ([], Raise UnboundLocalError).
Proof.
  intros is_dir project lif i rest img zindex cms lo hi output Himg Hn.
  unfold main. cbn [loop]. unfold iteration. rewrite Himg.
  unfold resolve_channels. cbn [v_channels v_channel].
  rewrite (range_nonpositive Hn). reflexivity.
Qed.

Lemma C2_zero_channels_witness :
  main no_dir (sample_project [0; 2]) "project.lif" (Some [0; 1]) None 0
    None (PyInt 0) (PyInt 4095) None
  = ([], Raise UnboundLocalError).
Proof.
  apply (@C2_zero_channels_aborts_the_run no_dir (sample_project [0; 2])
           "project.lif" 0 [1] (sample_image 0)).
  - reflexivity.
  - simpl. lia.
Defined.

(** ** The composite *)

Lemma layers_cons_imshow (l : layer) (t : list event) :
  layers (imshow l :: t) = l :: layers t.
Proof. reflexivity. Qed.

(** The layers of a composite: the background, then the channel layers
    that [paint] produced before it returned or raised. *)
Lemma composite_layers (cms : list string) (first : PixelArray)
    (pix_arrays : list PixelArray) (lo hi : PyVal) :
  layers (fst (composite cms first pix_arrays lo hi))
  = background_layer first
      :: layers (fst (paint (combine cms pix_arrays) lo hi
                        (alpha_of pix_arrays))).
Proof.
  unfold composite.
  destruct (paint (combine cms pix_arrays) lo hi (alpha_of pix_arrays))
    as [t [[]|e]]; cbn; [|reflexivity].
  unfold layers. rewrite collect_app. cbn. now rewrite app_nil_r.
Qed.









(** C4: the first painted layer is a constant field with the shape of the
    first pixel array, in the bright-field map under the bounds 0 and 1;
    but the constant is 1, the upper bound, so every sample of the layer
    sits at the full end of the map, which is white, while black is its
    zero end. *)
Theorem C4_background_sits_at_the_white_end :
  forall (cms : list string) (first : PixelArray)
         (pix_arrays : list PixelArray) (lo hi : PyVal),
    hd_error (layers (fst (composite cms first pix_arrays lo hi)))
    = Some (background_layer first)
    /\ X (background_layer first) = np_full (shape first) 1
    /\ cmap (background_layer first) = cmap_bf
    /\ vmin (background_layer first) = PyInt 0
    /\ vmax (background_layer first) = PyInt 1
    /\ Forall (Forall (fun v => v = 1
                 /\ rendered (background_layer first) v = Some "white"))
         (X (background_layer first))
    /\ zero_colour cmap_bf = Some "black"
    /\ full_colour cmap_bf = Some "white".
Proof.
  intros cms first pix_arrays lo hi.
  split; [now rewrite composite_layers|].
  repeat (split; [reflexivity|]).
  split; [|split; reflexivity].
  cbn [X background_layer]. unfold black_background, np_full.
  apply Forall_forall. intros row Hrow.
  apply repeat_spec in Hrow. subst row.
  apply Forall_forall. intros v Hv.
  apply repeat_spec in Hv. subst v.
  split; reflexivity.
Qed.

(** ** The trace of one iteration *)

Section Iteration.

Variable project : Readlif.LifFile.
Variables (fmt : string) (zindex : Z) (lo hi : PyVal).

(** The trace of an iteration, piece by piece. *)
Lemma iteration_trace (st : locals) (i : Z) (img : Readlif.Image) :
  Readlif.get_image project i = Some img ->
  let chans := resolve_channels st img in
  let r := extract img i zindex chans (v_channel st) [] in
  fst (iteration project fmt zindex lo hi st i)
  = (fst r ++
     match snd (snd r) with
     | [] =>
         match fst (snd r) with
         | Some c => [print (warning c i)]
         | None => []
         end
     | first :: _ =>
         let m := composite (resolve_cmaps st) first (snd (snd r)) lo hi in
         fst m ++
         match snd m with
         | Ok _ => save_events fmt zindex i chans
         | Raise _ => []
         end
     end)%list.
Proof.
  intros Himg chans r. unfold iteration. rewrite Himg.
  fold chans. fold r. destruct r as [t [channel pix]].
  cbn [fst snd]. rewrite bind_Ok. cbn [fst]. f_equal.
  destruct pix as [|first pix'].
  - destruct channel; reflexivity.
  - cbv zeta. rewrite fst_bind. f_equal.
    destruct (snd (composite (resolve_cmaps st) first (first :: pix') lo hi))
      as [[]|e]; [|reflexivity].
    unfold save_events, lift, bind.
    destruct (fname_of fmt i zindex chans); reflexivity.
Qed.

(** The outcome of an iteration. *)
Lemma iteration_outcome (st : locals) (i : Z) (img : Readlif.Image) :
  Readlif.get_image project i = Some img ->
  let chans := resolve_channels st img in
  let r := extract img i zindex chans (v_channel st) [] in
  snd (iteration project fmt zindex lo hi st i)
  = match snd (snd r) with
    | [] =>
        match fst (snd r) with
        | Some c => Ok {| v_channels := Some chans;
                          v_cmaps := v_cmaps st;
                          v_channel := Some c |}
        | None => Raise UnboundLocalError
        end
    | first :: _ =>
        match snd (composite (resolve_cmaps st) first (snd (snd r)) lo hi) with
        | Raise e => Raise e
        | Ok _ =>
            match fname_of fmt i zindex chans with
            | Raise e => Raise e
            | Ok _ => Ok {| v_channels := Some chans;
                            v_cmaps := Some (resolve_cmaps st);
                            v_channel := fst (snd r) |}
            end
        end
    end.
Proof.
  intros Himg chans r. unfold iteration. rewrite Himg.
  fold chans. fold r. destruct r as [t [channel pix]].
  cbn [fst snd]. rewrite bind_Ok. cbn [snd].
  destruct pix as [|first pix'].
  - destruct channel; reflexivity.
  - cbv zeta. rewrite snd_bind.
    destruct (snd (composite (resolve_cmaps st) first (first :: pix') lo hi))
      as [[]|e]; [|reflexivity].
    unfold lift, bind.
    destruct (fname_of fmt i zindex chans); reflexivity.
Qed.

Lemma iteration_no_image (st : locals) (i : Z) :
  Readlif.get_image project i = None ->
  iteration project fmt zindex lo hi st i = ([], Raise CollaboratorError).
Proof. intros H. unfold iteration. now rewrite H. Qed.

End Iteration.

(** ** Layers of a whole run *)

Lemma extract_calls (img : Readlif.Image) (i zindex : Z) (chans : list Z)
    (channel : option Z) :
  exists called : list Z,
    fst (extract img i zindex chans channel [])
    = map (get_frame_call i zindex 0) called
    /\ incl called chans.
Proof.
  destruct (extract_spec img i zindex chans channel)
    as (n & _ & _ & _ & Hcalls & _).
  exists (firstn (S n) chans). split; [exact Hcalls|].
  intros c Hc. rewrite <- (firstn_skipn (S n) chans).
  apply in_or_app. now left.
Qed.





Section Runs.

Variable project : Readlif.LifFile.
Variables (fmt : string) (zindex : Z) (lo hi : PyVal).



End Runs.




(** ** Locals carried from one image to the next *)

Section Persistence.

Variable project : Readlif.LifFile.
Variables (fmt : string) (zindex : Z) (lo hi : PyVal).

(** After an iteration that returns, [channels] is bound to the list
    the iteration used and [cmaps], once bound, stays as it is. *)
Lemma iteration_locals (st st' : locals) (i : Z) (img : Readlif.Image) :
  Readlif.get_image project i = Some img ->
  snd (iteration project fmt zindex lo hi st i) = Ok st' ->
  v_channels st' = Some (resolve_channels st img)
  /\ resolve_cmaps st' = resolve_cmaps st.
Proof.
  intros Himg. rewrite (iteration_outcome project fmt zindex lo hi st i Himg).
  cbv zeta.
  destruct (snd (snd (extract img i zindex (resolve_channels st img)
                        (v_channel st) []))) as [|first pix'].
  - destruct (fst (snd (extract img i zindex (resolve_channels st img)
                          (v_channel st) []))); [|discriminate].
    intros H; inversion H; subst st'. split; reflexivity.
  - destruct (snd (composite _ _ _ _ _)); [|discriminate].
    destruct (fname_of _ _ _ _); [|discriminate].
    intros H; inversion H; subst st'. split; reflexivity.
Qed.

Lemma iteration_alike (st1 st2 : locals) (i : Z) (rest : list Z) :
  alike project (i :: rest) st1 st2 ->
  fst (iteration project fmt zindex lo hi st1 i)
  = fst (iteration project fmt zindex lo hi st2 i)
  /\ match snd (iteration project fmt zindex lo hi st1 i),
           snd (iteration project fmt zindex lo hi st2 i) with
     | Ok s1, Ok s2 => alike project rest s1 s2
     | Raise e1, Raise e2 => e1 = e2
     | _, _ => False
     end.
Proof.
  intros (Hch & Hcm & Hcs).
  destruct (Readlif.get_image project i) as [img|] eqn:Himg.
  - specialize (Hcs i rest img eq_refl Himg).
    rewrite !(iteration_trace project fmt zindex lo hi _ i Himg).
    rewrite !(iteration_outcome project fmt zindex lo hi _ i Himg).
    cbv zeta. rewrite <- Hcs, <- Hch, <- Hcm. split; [reflexivity|].
    destruct (snd (snd (extract img i zindex (resolve_channels st1 img)
                          (v_channel st1) []))) as [|first pix'].
    + destruct (fst (snd (extract img i zindex (resolve_channels st1 img)
                            (v_channel st1) []))); [|reflexivity].
      repeat split; auto.
    + destruct (snd (composite _ _ _ _ _)); [|reflexivity].
      destruct (fname_of _ _ _ _); [|reflexivity].
      repeat split; auto.
  - rewrite !iteration_no_image by assumption. split; reflexivity.
Qed.

Lemma loop_alike (idx : list Z) :
  forall st1 st2 : locals,
    alike project idx st1 st2 ->
    fst (loop project fmt zindex lo hi st1 idx)
    = fst (loop project fmt zindex lo hi st2 idx)
    /\ match snd (loop project fmt zindex lo hi st1 idx),
             snd (loop project fmt zindex lo hi st2 idx) with
       | Ok _, Ok _ => True
       | Raise e1, Raise e2 => e1 = e2
       | _, _ => False
       end.
Proof.
  induction idx as [|i rest IH]; intros st1 st2 Halike; cbn [loop].
  - split; [reflexivity|exact I].
  - destruct (iteration_alike Halike) as (Ht & Hr).
    rewrite !fst_bind, !snd_bind, Ht.
    destruct (snd (iteration project fmt zindex lo hi st1 i)) as [s1|e1],
             (snd (iteration project fmt zindex lo hi st2 i)) as [s2|e2];
      try contradiction.
    + destruct (IH s1 s2 Hr) as (Ht' & Hr'). now rewrite Ht'.
    + split; [reflexivity|exact Hr].
Qed.


End Persistence.



(** ** File names *)

(** C5: a project of two images that report 2 and 3 channels, every
    frame of which can be fetched, run with [--lif project.lif] alone.
    Two files are saved, but the second is named after the channels of
    image 0, [c0-1], not after the channels [c0-1-2] of image 1, and
    channel 2 of image 1 is never fetched. *)
Theorem C5_second_file_is_named_after_the_first_image :
  let run := main no_dir (sample_project [2; 3]) "project.lif" None None 0
               None (PyInt 0) (PyInt 4095) None in
  snd run = Ok tt
  /\ saved (fst run) = ["project_i0_z0_c0-1.png"; "project_i1_z0_c0-1.png"]
  /\ fetched (fst run) = [(0, 0); (0, 1); (1, 0); (1, 1)]
  /\ option_map Readlif.channels
       (Readlif.get_image (sample_project [2; 3]) 1) = Some 3
  /\ resolveOutputPath_reference "project" 1 0 (Py.range 3)
     = "project_i1_z0_c0-1-2.png"
  /\ ~ In "project_i1_z0_c0-1-2.png" (saved (fst run)).
Proof.
  cbv zeta. repeat (split; [vm_compute; reflexivity|]).
  vm_compute. intros [H|[H|[]]]; discriminate.
Qed.

(** C7: a prefix with a dot in it.  [with_suffix] replaces everything
    from the last dot of the formatted name, so the index pattern is
    lost with the old suffix: [--output out.v2] names every image
    [out.png], and so does a project file [scan.2020.lif] without
    [--output] with [scan.png], where the reference definition keeps the
    pattern. *)
Theorem C7_dotted_prefix_loses_the_pattern :
  fname_of (output_fmt no_dir "project.lif" (Some "out.v2")) 0 0 [0; 1]
  = Ok "out.png"
  /\ resolveOutputPath_reference "out.v2" 0 0 [0; 1] = "out.v2_i0_z0_c0-1.png"
  /\ fname_of (output_fmt no_dir "project.lif" (Some "out.v2")) 1 0 [0; 1]
     = Ok "out.png"
  /\ fname_of (output_fmt no_dir "scan.2020.lif" None) 0 0 [0; 1]
     = Ok "scan.png"
  /\ resolveOutputPath_reference (Pathlib.stem (Pathlib.Path "scan.2020.lif"))
       0 0 [0; 1] = "scan.2020_i0_z0_c0-1.png"
  /\ saved (fst (main no_dir (sample_project [2; 2]) "project.lif" None None
                   0 None (PyInt 0) (PyInt 4095) (Some "out.v2")))
     = ["out.png"; "out.png"].
Proof. repeat split; vm_compute; reflexivity. Qed.

(** ** Where the file name is the one of the reference definition *)

Lemma append_empty_r (s : string) : s ++ "" = s.
Proof. induction s as [|c s IH]; cbn; [reflexivity|now rewrite IH]. Qed.

Lemma append_assoc (a b c : string) : (a ++ b) ++ c = a ++ (b ++ c).
Proof. induction a as [|x a IH]; cbn; [reflexivity|now rewrite IH]. Qed.

Lemma all_chars_app (P : ascii -> bool) (a b : string) :
  all_chars P (a ++ b) = (all_chars P a && all_chars P b)%bool.
Proof.
  induction a as [|c a IH]; cbn; [reflexivity|].
  now rewrite IH, andb_assoc.
Qed.

Lemma plain_spec (c : ascii) :
  plain c = true ->
  Ascii.eqb c "." = false /\ Ascii.eqb c "/" = false
  /\ Ascii.eqb c "{" = false /\ Ascii.eqb c "}" = false.
Proof.
  unfold plain. intros H.
  repeat (apply andb_prop in H; destruct H as [H ?]).
  repeat split; now apply negb_true_iff.
Qed.

Lemma format_plain (p : string) :
  all_chars plain p = true ->
  forall (rest : string) (args : list string),
    Py.format (p ++ rest) args
    = match Py.format rest args with
      | Ok s => Ok (p ++ s)
      | Raise e => Raise e
      end.
Proof.
  induction p as [|c p IH]; intros Hp rest args.
  - cbn. now destruct (Py.format rest args).
  - cbn [all_chars] in Hp. apply andb_prop in Hp. destruct Hp as [Hc Hp].
    destruct (plain_spec c Hc) as (_ & _ & Ho & Hcl).
    cbn [append Py.format]. rewrite Ho, Hcl, (IH Hp).
    now destruct (Py.format rest args).
Qed.

Lemma format_pattern (a b c : string) :
  Py.format "_i{}_z{}_c{}" [a; b; c]
  = Ok ("_i" ++ a ++ "_z" ++ b ++ "_c" ++ c).
Proof. cbn. now rewrite append_empty_r. Qed.

Lemma split_without_sep (sep : ascii) (s : string) :
  all_chars (fun c => negb (Ascii.eqb c sep)) s = true ->
  Py.split sep s = [s].
Proof.
  induction s as [|c s IH]; cbn; [reflexivity|].
  intros H. apply andb_prop in H. destruct H as [Hc Hs].
  apply negb_true_iff in Hc. now rewrite Hc, (IH Hs).
Qed.

Lemma rfind_without (ch : ascii) (s : string) :
  all_chars (fun c => negb (Ascii.eqb c ch)) s = true ->
  Py.rfind ch s = None.
Proof.
  induction s as [|c s IH]; cbn; [reflexivity|].
  intros H. apply andb_prop in H. destruct H as [Hc Hs].
  apply negb_true_iff in Hc. now rewrite (IH Hs), Hc.
Qed.

Lemma all_chars_impl (P Q : ascii -> bool) (s : string) :
  (forall c, P c = true -> Q c = true) ->
  all_chars P s = true -> all_chars Q s = true.
Proof.
  intros HPQ. induction s as [|c s IH]; cbn; [reflexivity|].
  intros H. apply andb_prop in H. destruct H as [Hc Hs].
  now rewrite (HPQ c Hc), (IH Hs).
Qed.

Lemma uint_plain (d : Decimal.uint) :
  all_chars plain (NilEmpty.string_of_uint d) = true.
Proof. induction d; cbn [NilEmpty.string_of_uint all_chars]; auto. Qed.

Lemma str_plain (n : Z) : all_chars plain (Py.str n) = true.
Proof.
  unfold Py.str, NilZero.string_of_int.
  destruct (Z.to_int n) as [d|d]; unfold NilZero.string_of_uint.
  - destruct d; try reflexivity; apply uint_plain.
  - cbn [all_chars]. destruct d; try reflexivity;
      (change (plain "-") with true; cbn [andb]; apply uint_plain).
Qed.

Lemma join_plain (l : list Z) :
  all_chars plain (Py.join "-" (map Py.str l)) = true.
Proof.
  unfold Py.join. induction l as [|n l IH]; [reflexivity|].
  destruct l as [|m l]; [apply str_plain|].
  change (all_chars plain (Py.str n ++ "-" ++ concat "-" (map Py.str (m :: l)))
          = true).
  rewrite !all_chars_app, str_plain, IH. reflexivity.
Qed.

(** The path of a non-empty name of plain characters is that one
    component, and [with_suffix('.png')] appends to it. *)
Lemma with_suffix_plain (s : string) :
  all_chars plain s = true ->
  s <> "" ->
  Pathlib.with_suffix_png (Pathlib.Path s)
  = Ok {| Pathlib.root := ""; Pathlib.parts := [s ++ ".png"] |}.
Proof.
  intros Hs Hne.
  assert (Hslash : all_chars (fun c => negb (Ascii.eqb c "/")) s = true).
  { apply (all_chars_impl plain); [|exact Hs].
    intros c Hc. destruct (plain_spec c Hc) as (_ & H & _). now rewrite H. }
  assert (Hdot : all_chars (fun c => negb (Ascii.eqb c ".")) s = true).
  { apply (all_chars_impl plain); [|exact Hs].
    intros c Hc. destruct (plain_spec c Hc) as (H & _). now rewrite H. }
  destruct s as [|c s]; [contradiction|].
  assert (Hroot : Pathlib.splitroot (String c s) = ("", String c s)).
  { unfold Pathlib.splitroot, Pathlib.sep_at. cbn [String.get].
    cbn [all_chars] in Hslash. apply andb_prop in Hslash.
    destruct Hslash as [Hc _]. apply negb_true_iff in Hc. now rewrite Hc. }
  assert (Hkeep : Pathlib.keep_part (String c s) = true).
  { unfold Pathlib.keep_part. cbn [String.eqb].
    cbn [all_chars] in Hdot. apply andb_prop in Hdot.
    destruct Hdot as [Hc _]. apply negb_true_iff in Hc. now rewrite Hc. }
  unfold Pathlib.with_suffix_png, Pathlib.Path, Pathlib.name.
  rewrite Hroot, (split_without_sep _ _ Hslash).
  cbn [filter]. rewrite Hkeep.
  cbn [Pathlib.parts Pathlib.root last removelast app String.eqb].
  unfold Pathlib.suffix_start. now rewrite (rfind_without _ _ Hdot).
Qed.

(** For a prefix of plain characters the name of the saved file is the
    one of the reference definition. *)
Lemma fname_of_plain_prefix (prefix : string) (i zindex : Z) (chans : list Z) :
  all_chars plain prefix = true ->
  fname_of (prefix ++ "_i{}_z{}_c{}") i zindex chans
  = Ok (resolveOutputPath_reference prefix i zindex chans).
Proof.
  intros Hp. unfold fname_of.
  rewrite (format_plain _ Hp), format_pattern.
  set (name := prefix ++ "_i" ++ Py.str i ++ "_z" ++ Py.str zindex ++ "_c"
                 ++ Py.join "-" (map Py.str chans)).
  assert (Hname : all_chars plain name = true).
  { unfold name.
    rewrite !all_chars_app, Hp, !str_plain, join_plain. reflexivity. }
  assert (Hne : name <> "").
  { unfold name. destruct prefix; discriminate. }
  rewrite (with_suffix_plain Hname Hne).
  unfold Pathlib.fspath, Py.join.
  cbn [Pathlib.root Pathlib.parts concat append].
  unfold name, resolveOutputPath_reference.
  repeat rewrite append_assoc. cbn [append].
  destruct prefix; reflexivity.
Qed.

(* ================================================================== *)
(** * Further properties of [main] *)

(** ** The name of the saved file *)

Lemma plain_no_slash (s : string) :
  all_chars plain s = true ->
  all_chars (fun c => negb (Ascii.eqb c "/")) s = true.
Proof.
  apply all_chars_impl. intros c Hc.
  destruct (plain_spec c Hc) as (_ & H & _). now rewrite H.
Qed.

Lemma plain_no_dot (s : string) :
  all_chars plain s = true ->
  all_chars (fun c => negb (Ascii.eqb c ".")) s = true.
Proof.
  apply all_chars_impl. intros c Hc.
  destruct (plain_spec c Hc) as (H & _). now rewrite H.
Qed.

Lemma eqb_empty_false (s : string) : s <> "" -> String.eqb s "" = false.
Proof. intros H. destruct s; [contradiction|reflexivity]. Qed.

(** X1: an [--output] string that is no directory and holds no dot, slash
    or brace is used as the prefix as it stands: image [i] is saved as
    [<output>_i<i>_z<zindex>_c<channels>.png]. *)
Theorem X1_output_prefix_names_the_file :
  forall (is_dir : string -> bool) (lif o : string) (i zindex : Z)
         (chans : list Z),
    all_chars plain o = true ->
    is_dir (Pathlib.fspath (Pathlib.Path o)) = false ->
    fname_of (output_fmt is_dir lif (Some o)) i zindex chans
    = Ok (o ++ "_i" ++ Py.str i ++ "_z" ++ Py.str zindex ++ "_c"
            ++ Py.join "-" (map Py.str chans) ++ ".png").
Proof.
  intros is_dir lif o i zindex chans Ho Hdir.
  unfold output_fmt. rewrite Hdir.
  apply (fname_of_plain_prefix o i zindex chans Ho).
Qed.

Lemma X1_output_prefix_witness :
  fname_of (output_fmt no_dir "project.lif" (Some "run7")) 3 2 [0; 2]
  = Ok ("run7" ++ "_i" ++ Py.str 3 ++ "_z" ++ Py.str 2 ++ "_c"
          ++ Py.join "-" (map Py.str [0; 2]) ++ ".png").
Proof.
  apply (@X1_output_prefix_names_the_file no_dir "project.lif" "run7" 3 2
           [0; 2]); reflexivity.
Defined.

(** The stem of [<name>.lif], for a non-empty name without dot or slash,
    is the name. *)
Lemma rfind_app_dot (a b : string) :
  all_chars (fun c => negb (Ascii.eqb c ".")) b = true ->
  Py.rfind "." (a ++ String "." b) = Some (String.length a).
Proof.
  intros Hb. induction a as [|c a IH]; cbn [append Py.rfind String.length].
  - now rewrite (rfind_without _ _ Hb).
  - now rewrite IH.
Qed.

Lemma length_append (a b : string) :
  String.length (a ++ b) = (String.length a + String.length b)%nat.
Proof. induction a as [|c a IH]; cbn; [reflexivity|now rewrite IH]. Qed.

Lemma take_append (a b : string) : Py.take (String.length a) (a ++ b) = a.
Proof.
  unfold Py.take. induction a as [|c a IH]; cbn.
  - now destruct b.
  - now rewrite IH.
Qed.

Lemma stem_of_lif (name : string) :
  all_chars plain name = true ->
  name <> "" ->
  Pathlib.stem (Pathlib.Path (name ++ ".lif")) = name.
Proof.
  intros Hp Hne.
  assert (Hslash : all_chars (fun c => negb (Ascii.eqb c "/")) (name ++ ".lif")
                   = true).
  { rewrite all_chars_app, (plain_no_slash _ Hp). reflexivity. }
  destruct name as [|c name]; [contradiction|].
  assert (Hroot : Pathlib.splitroot (String c name ++ ".lif")
                  = ("", String c name ++ ".lif")).
  { unfold Pathlib.splitroot, Pathlib.sep_at. cbn [append String.get].
    cbn [append all_chars] in Hslash. apply andb_prop in Hslash.
    destruct Hslash as [Hc _]. apply negb_true_iff in Hc. now rewrite Hc. }
  unfold Pathlib.stem, Pathlib.name, Pathlib.Path.
  rewrite Hroot, (split_without_sep _ _ Hslash).
  cbn [filter Pathlib.keep_part].
  replace (Pathlib.keep_part (String c name ++ ".lif")) with true.
  2:{ unfold Pathlib.keep_part. cbn [append String.eqb].
      destruct (Ascii.eqb c "."); [|reflexivity].
      destruct name; reflexivity. }
  cbn [Pathlib.parts last]. unfold Pathlib.suffix_start.
  change (String c name ++ ".lif") with (String c name ++ String "." "lif").
  rewrite rfind_app_dot by reflexivity.
  rewrite length_append. cbn [String.length].
  replace ((0 <? S (String.length name))%nat) with true
    by (symmetry; apply Nat.ltb_lt; lia).
  replace ((S (String.length name) <? S (String.length name) + 4 - 1)%nat)
    with true by (symmetry; apply Nat.ltb_lt; lia).
  cbn [andb].
  apply (take_append (String c name) ".lif").
Qed.

(** X2: without [--output], a project file [<name>.lif] whose name holds
    no dot, slash or brace gives its name to the files: image [i] is
    saved as [<name>_i<i>_z<zindex>_c<channels>.png]. *)
Theorem X2_project_name_is_the_default_prefix :
  forall (is_dir : string -> bool) (name : string) (i zindex : Z)
         (chans : list Z),
    all_chars plain name = true ->
    name <> "" ->
    fname_of (output_fmt is_dir (name ++ ".lif") None) i zindex chans
    = Ok (name ++ "_i" ++ Py.str i ++ "_z" ++ Py.str zindex ++ "_c"
            ++ Py.join "-" (map Py.str chans) ++ ".png").
Proof.
  intros is_dir name i zindex chans Hp Hne.
  unfold output_fmt. rewrite (stem_of_lif Hp Hne).
  apply (fname_of_plain_prefix name i zindex chans Hp).
Qed.

Lemma X2_project_name_witness :
  fname_of (output_fmt no_dir ("cells" ++ ".lif") None) 1 0 [0; 1; 2]
  = Ok ("cells" ++ "_i" ++ Py.str 1 ++ "_z" ++ Py.str 0 ++ "_c"
          ++ Py.join "-" (map Py.str [0; 1; 2]) ++ ".png").
Proof.
  apply (@X2_project_name_is_the_default_prefix no_dir "cells" 1 0 [0; 1; 2]).
  - reflexivity.
  - discriminate.
Defined.

Lemma split_app_sep (sep : ascii) (a b : string) :
  all_chars (fun c => negb (Ascii.eqb c sep)) a = true ->
  Py.split sep (a ++ String sep b) = a :: Py.split sep b.
Proof.
  intros Ha. induction a as [|c a IH]; cbn [append Py.split].
  - now rewrite Ascii.eqb_refl.
  - cbn [all_chars] in Ha. apply andb_prop in Ha. destruct Ha as [Hc Ha].
    apply negb_true_iff in Hc. now rewrite Hc, (IH Ha).
Qed.

Lemma ends_with_without (ch : ascii) (s : string) :
  all_chars (fun c => negb (Ascii.eqb c ch)) s = true ->
  Py.ends_with ch s = false.
Proof.
  induction s as [|c s IH]; [reflexivity|].
  cbn [all_chars]. intros H. apply andb_prop in H. destruct H as [Hc Hs].
  apply negb_true_iff in Hc. cbn [Py.ends_with].
  destruct s; [exact Hc|exact (IH Hs)].
Qed.

Lemma keep_plain (s : string) :
  all_chars plain s = true -> s <> "" -> Pathlib.keep_part s = true.
Proof.
  intros Hp Hne. destruct s as [|c s]; [contradiction|].
  pose proof (@plain_no_dot _ Hp) as Hd. cbn [all_chars] in Hd.
  apply andb_prop in Hd. destruct Hd as [Hc _]. apply negb_true_iff in Hc.
  unfold Pathlib.keep_part. cbn [String.eqb]. now rewrite Hc.
Qed.

(** The path of [d/nm] for a directory name and a file name without
    slashes that are neither empty nor [.]. *)
Lemma path_of_dir_and_name (d nm : string) :
  all_chars (fun c => negb (Ascii.eqb c "/")) d = true ->
  all_chars (fun c => negb (Ascii.eqb c "/")) nm = true ->
  Pathlib.keep_part d = true ->
  Pathlib.keep_part nm = true ->
  Pathlib.Path (d ++ "/" ++ nm)
  = {| Pathlib.root := ""; Pathlib.parts := [d; nm] |}.
Proof.
  intros Hd Hn Kd Kn.
  assert (Hroot : Pathlib.splitroot (d ++ "/" ++ nm) = ("", d ++ "/" ++ nm)).
  { unfold Pathlib.splitroot, Pathlib.sep_at.
    destruct d as [|c d]; [discriminate|].
    cbn [append String.get]. cbn [all_chars] in Hd.
    apply andb_prop in Hd. destruct Hd as [Hc _].
    apply negb_true_iff in Hc. now rewrite Hc. }
  unfold Pathlib.Path. rewrite Hroot.
  change (d ++ "/" ++ nm) with (d ++ String "/" nm).
  rewrite (@split_app_sep _ _ _ Hd), (split_without_sep _ _ Hn).
  cbn [filter]. now rewrite Kd, Kn.
Qed.

(** X3: an [--output] that names an existing directory, written without
    dot, slash or brace, supplies the place and no prefix text: image [i]
    is saved as [<dir>/i<i>_z<zindex>_c<channels>.png]. *)
Theorem X3_output_directory_holds_the_files :
  forall (is_dir : string -> bool) (lif d : string) (i zindex : Z)
         (chans : list Z),
    all_chars plain d = true ->
    d <> "" ->
    is_dir (Pathlib.fspath (Pathlib.Path d)) = true ->
    fname_of (output_fmt is_dir lif (Some d)) i zindex chans
    = Ok (d ++ "/i" ++ Py.str i ++ "_z" ++ Py.str zindex ++ "_c"
            ++ Py.join "-" (map Py.str chans) ++ ".png").
Proof.
  intros is_dir lif d i zindex chans Hp Hne Hdir.
  pose proof (@plain_no_slash _ Hp) as Hslash.
  pose proof (@keep_plain _ Hp Hne) as Hkeep.
  assert (Hfmt : output_fmt is_dir lif (Some d) = d ++ "/i{}_z{}_c{}").
  { unfold output_fmt. rewrite Hdir.
    unfold Pathlib.Path2, Pathlib.os_path_join.
    change (Pathlib.sep_at 0 "i{}_z{}_c{}") with false. cbv iota.
    rewrite (@eqb_empty_false _ Hne), (@ends_with_without _ _ Hslash).
    cbn [orb].
    rewrite (@path_of_dir_and_name d "i{}_z{}_c{}" Hslash eq_refl Hkeep eq_refl).
    unfold Pathlib.fspath, Py.join. cbn [Pathlib.root Pathlib.parts concat].
    change ("" ++ d ++ "/" ++ "i{}_z{}_c{}") with (d ++ "/i{}_z{}_c{}").
    rewrite eqb_empty_false; [reflexivity|].
    destruct d; [contradiction|discriminate]. }
  rewrite Hfmt. unfold fname_of.
  rewrite (format_plain _ Hp). cbn [Py.format Ascii.eqb Bool.eqb].
  rewrite append_empty_r.
  set (nm := "i" ++ Py.str i ++ "_z" ++ Py.str zindex ++ "_c"
               ++ Py.join "-" (map Py.str chans)).
  assert (Hnm : all_chars plain nm = true).
  { unfold nm. rewrite !all_chars_app, !str_plain, join_plain. reflexivity. }
  change (d ++ String "/" (String "i" (Py.str i ++ String "_" (String "z"
            (Py.str zindex ++ String "_" (String "c"
               (Py.join "-" (map Py.str chans))))))))
    with (d ++ "/" ++ nm).
  rewrite (@path_of_dir_and_name d nm Hslash (@plain_no_slash _ Hnm) Hkeep
             (@keep_plain _ Hnm ltac:(discriminate))).
  unfold Pathlib.with_suffix_png, Pathlib.name.
  cbn [Pathlib.parts Pathlib.root last removelast app].
  change (String.eqb nm "") with false. cbv iota.
  unfold Pathlib.suffix_start.
  rewrite (@rfind_without _ _ (@plain_no_dot _ Hnm)).
  unfold Pathlib.fspath, Py.join. cbn [Pathlib.root Pathlib.parts concat].
  change ("" ++ d ++ "/" ++ nm ++ ".png") with (d ++ "/" ++ nm ++ ".png").
  rewrite eqb_empty_false by (destruct d; [contradiction|discriminate]).
  unfold nm. repeat rewrite append_assoc. reflexivity.
Qed.

Lemma X3_output_directory_witness :
  fname_of (output_fmt (fun p => String.eqb p "plots") "project.lif"
              (Some "plots")) 4 1 [0; 1]
  = Ok ("plots" ++ "/i" ++ Py.str 4 ++ "_z" ++ Py.str 1 ++ "_c"
          ++ Py.join "-" (map Py.str [0; 1]) ++ ".png").
Proof.
  apply (@X3_output_directory_holds_the_files
           (fun p => String.eqb p "plots") "project.lif" "plots" 4 1 [0; 1]).
  - reflexivity.
  - discriminate.
  - reflexivity.
Defined.

Lemma concat_snoc (sep : string) (l : list string) (x : string) :
  exists pre : string, concat sep (l ++ [x]) = pre ++ x.
Proof.
  induction l as [|a l IH].
  - now exists "".
  - destruct IH as (pre & Hpre).
    exists (a ++ sep ++ pre).
    change ((a :: l) ++ [x])%list with (a :: (l ++ [x]))%list.
    destruct (l ++ [x])%list as [|b r] eqn:E.
    + now destruct l.
    + change (concat sep (a :: b :: r)) with (a ++ sep ++ concat sep (b :: r)).
      rewrite Hpre. now rewrite !append_assoc.
Qed.

(** X4: whatever the prefix, a file name that [main] passes to [savefig]
    ends in [.png]. *)
Theorem X4_saved_names_end_in_png :
  forall (fmt : string) (i zindex : Z) (chans : list Z) (fname : string),
    fname_of fmt i zindex chans = Ok fname ->
    exists s : string, fname = s ++ ".png".
Proof.
  intros fmt i zindex chans fname H. unfold fname_of in H.
  destruct (Py.format fmt _) as [_fname|e]; [|discriminate].
  unfold Pathlib.with_suffix_png in H.
  destruct (String.eqb (Pathlib.name (Pathlib.Path _fname)) ""); [discriminate|].
  inversion H as [Hf]; clear H.
  set (x := match Pathlib.suffix_start (Pathlib.name (Pathlib.Path _fname)) with
            | Some k => Py.take k (Pathlib.name (Pathlib.Path _fname))
            | None => Pathlib.name (Pathlib.Path _fname)
            end).
  assert (Hx : match Pathlib.suffix_start (Pathlib.name (Pathlib.Path _fname)) with
               | Some k => Py.take k (Pathlib.name (Pathlib.Path _fname)) ++ ".png"
               | None => Pathlib.name (Pathlib.Path _fname) ++ ".png"
               end = x ++ ".png").
  { unfold x. now destruct (Pathlib.suffix_start _). }
  unfold Pathlib.fspath, Py.join. cbn [Pathlib.root Pathlib.parts].
  rewrite Hx.
  destruct (concat_snoc "/" (removelast (Pathlib.parts (Pathlib.Path _fname)))
              (x ++ ".png")) as (pre & Hpre).
  rewrite Hpre.
  exists (Pathlib.root (Pathlib.Path _fname) ++ pre ++ x).
  rewrite eqb_empty_false.
  - now rewrite !append_assoc.
  - destruct (Pathlib.root (Pathlib.Path _fname)); [|discriminate].
    destruct pre; [|discriminate]. destruct x; discriminate.
Qed.

Lemma X4_saved_names_witness :
  exists s : string, "a.b/c.png" = s ++ ".png".
Proof.
  apply (@X4_saved_names_end_in_png "a.b/c.d_i{}_z{}_c{}" 0 0 [0] "a.b/c.png").
  reflexivity.
Defined.



Lemma append_cancel_l (a x y : string) : a ++ x = a ++ y -> x = y.
Proof.
  induction a as [|c a IH]; cbn; [auto|].
  intros H. inversion H. auto.
Qed.

Lemma delimited_head (d : ascii) (s1 s2 r1 r2 : string) :
  all_chars (fun c => negb (Ascii.eqb c d)) s1 = true ->
  all_chars (fun c => negb (Ascii.eqb c d)) s2 = true ->
  s1 ++ String d r1 = s2 ++ String d r2 ->
  s1 = s2.
Proof.
  revert s2. induction s1 as [|c s1 IH]; intros s2 H1 H2 E.
  - destruct s2 as [|c2 s2]; [reflexivity|].
    cbn in E, H2. inversion E; subst c2.
    now rewrite Ascii.eqb_refl in H2.
  - destruct s2 as [|c2 s2].
    + cbn in E, H1. inversion E; subst c.
      now rewrite Ascii.eqb_refl in H1.
    + cbn in E, H1, H2. inversion E; subst c2.
      apply andb_prop in H1. apply andb_prop in H2.
      f_equal. apply IH; tauto.
Qed.

Lemma uint_no_underscore (d : Decimal.uint) :
  all_chars (fun c => negb (Ascii.eqb c "_")) (NilEmpty.string_of_uint d)
  = true.
Proof. induction d; cbn [NilEmpty.string_of_uint all_chars]; auto. Qed.

Lemma str_no_underscore (n : Z) :
  all_chars (fun c => negb (Ascii.eqb c "_")) (Py.str n) = true.
Proof.
  unfold Py.str, NilZero.string_of_int.
  destruct (Z.to_int n) as [d|d]; unfold NilZero.string_of_uint.
  - destruct d; try reflexivity; apply uint_no_underscore.
  - cbn [all_chars]. destruct d; try reflexivity;
      (cbn [Ascii.eqb Bool.eqb negb andb]; apply uint_no_underscore).
Qed.

(** [str] of an integer determines the integer. *)
Lemma str_inj (n m : Z) : Py.str n = Py.str m -> n = m.
Proof.
  unfold Py.str. intros H.
  apply DecimalZ.to_int_inj.
  assert (Hn : forall k, NilZero.int_of_string
                           (NilZero.string_of_int (Z.to_int k))
                         = Some (Z.to_int k)).
  { intros k. apply NilZero.isi; destruct k; cbn; try discriminate;
      intros E; inversion E as [E'];
      exact (DecimalPos.Unsigned.to_uint_nonnil _ E'). }
  pose proof (Hn n) as H1. rewrite H, Hn in H1. now inversion H1.
Qed.

(** X6: under a prefix without dot, slash or brace, two different image
    indexes never share a file: no image overwrites another one. *)
Theorem X6_plain_prefix_keeps_images_apart :
  forall (is_dir : string -> bool) (lif o : string) (i j zindex : Z)
         (chans chans' : list Z),
    all_chars plain o = true ->
    is_dir (Pathlib.fspath (Pathlib.Path o)) = false ->
    i <> j ->
    fname_of (output_fmt is_dir lif (Some o)) i zindex chans
    <> fname_of (output_fmt is_dir lif (Some o)) j zindex chans'.
Proof.
  intros is_dir lif o i j zindex chans chans' Ho Hdir Hij E.
  unfold output_fmt in E. rewrite Hdir in E.
  rewrite !(fname_of_plain_prefix o _ zindex _ Ho) in E.
  inversion E as [E']. unfold resolveOutputPath_reference in E'.
  apply append_cancel_l in E'.
  apply (append_cancel_l "_i") in E'.
  apply Hij, str_inj.
  exact (@delimited_head "_" (Py.str i) (Py.str j) _ _
           (str_no_underscore i) (str_no_underscore j) E').
Qed.

Lemma X6_plain_prefix_witness :
  fname_of (output_fmt no_dir "project.lif" (Some "run7")) 0 0 [0; 1]
  <> fname_of (output_fmt no_dir "project.lif" (Some "run7")) 1 0 [0; 1].
Proof.
  apply (@X6_plain_prefix_keeps_images_apart no_dir "project.lif" "run7" 0 1 0
           [0; 1] [0; 1]).
  - reflexivity.
  - reflexivity.
  - discriminate.
Defined.

(** ** The calls of a run *)

(** Every layer [paint] produces shows an array of its pairs in the
    [LUT] colour map of the name paired with it, under the bounds given. *)
Lemma paint_layers_from (pairs : list (string * PixelArray))
    (lo hi : PyVal) (a : Q) :
  Forall (fun l => exists k pa,
              In (k, pa) pairs /\ dict_get LUT k = Some (cmap l)
              /\ vmin l = lo /\ vmax l = hi)
    (layers (fst (paint pairs lo hi a))).
Proof.
  induction pairs as [|[k pa] rest IH]; cbn [paint]; [constructor|].
  destruct (dict_get LUT k) as [m|] eqn:Hk; [|constructor].
  unfold emit, bind. destruct (paint rest lo hi a) as [t r].
  cbn [fst app] in *. rewrite layers_cons_imshow. constructor.
  - exists k, pa. cbn. auto.
  - eapply Forall_impl; [|exact IH].
    intros l (k' & pa' & Hin & H). exists k', pa'. split; [now right|exact H].
Qed.

Lemma paint_trace (pairs : list (string * PixelArray)) (lo hi : PyVal) (a : Q) :
  fst (paint pairs lo hi a) = map imshow (layers (fst (paint pairs lo hi a))).
Proof.
  induction pairs as [|[k pa] rest IH]; cbn [paint]; [reflexivity|].
  destruct (dict_get LUT k) as [m|]; [|reflexivity].
  unfold emit, bind. destruct (paint rest lo hi a) as [t r].
  cbn [fst app] in *. rewrite layers_cons_imshow. cbn [map]. now f_equal.
Qed.

Lemma paint_outcome (pairs : list (string * PixelArray)) (lo hi : PyVal)
    (a : Q) :
  snd (paint pairs lo hi a) = Ok tt \/ snd (paint pairs lo hi a) = Raise KeyError.
Proof.
  induction pairs as [|[k pa] rest IH]; cbn [paint]; [now left|].
  destruct (dict_get LUT k) as [m|]; [|now right].
  unfold emit, bind. destruct (paint rest lo hi a) as [t r]. exact IH.
Qed.

(** The calls of the composite, and its outcome, which is the outcome of
    painting the channel layers. *)
Lemma composite_trace (cms : list string) (first : PixelArray)
    (pix_arrays : list PixelArray) (lo hi : PyVal) :
  let p := paint (combine cms pix_arrays) lo hi (alpha_of pix_arrays) in
  fst (composite cms first pix_arrays lo hi)
  = (figure (fig_size first) 100 :: imshow (background_layer first)
       :: fst p ++
       match snd p with
       | Ok _ => [axis_off; subplots_adjust 0 1 1 0]
       | Raise _ => []
       end)%list
  /\ snd (composite cms first pix_arrays lo hi) = snd p.
Proof.
  cbv zeta. unfold composite.
  destruct (paint (combine cms pix_arrays) lo hi (alpha_of pix_arrays))
    as [t [[]|e]]; cbn; [split; reflexivity|].
  now rewrite app_nil_r.
Qed.

Section Events.

Variable project : Readlif.LifFile.
Variables (fmt : string) (zindex : Z) (lo hi : PyVal).

(** Every call of an iteration is of one of eight kinds; a property of
    all of them holds along the trace. *)
Lemma iteration_events (R : event -> Prop) (st : locals) (i : Z) :
  (forall c, R (get_frame_call i zindex 0 c)) ->
  (forall line, R (print line)) ->
  (forall sz, R (figure sz 100)) ->
  (forall first, R (imshow (background_layer first))) ->
  (forall l k, In k (resolve_cmaps st) -> dict_get LUT k = Some (cmap l) ->
               vmin l = lo -> vmax l = hi -> R (imshow l)) ->
  R axis_off ->
  R (subplots_adjust 0 1 1 0) ->
  (forall f, R (savefig f 1000 true)) ->
  R close ->
  Forall R (fst (iteration project fmt zindex lo hi st i)).
Proof.
  intros Rcall Rprint Rfig Rbg Rlayer Raxis Radj Rsave Rclose.
  destruct (Readlif.get_image project i) as [img|] eqn:Himg.
  2:{ rewrite iteration_no_image by assumption. constructor. }
  rewrite (iteration_trace project fmt zindex lo hi st i Himg). cbv zeta.
  destruct (extract_calls img i zindex (resolve_channels st img)
              (v_channel st)) as (called & Hc & _).
  apply Forall_app. split.
  - rewrite Hc. apply Forall_forall. intros e He.
    apply in_map_iff in He. destruct He as (c & <- & _). apply Rcall.
  - destruct (snd (snd (extract img i zindex (resolve_channels st img)
                          (v_channel st) []))) as [|first pix'].
    + destruct (fst (snd (extract img i zindex (resolve_channels st img)
                            (v_channel st) []))); repeat constructor.
      apply Rprint.
    + destruct (composite_trace (resolve_cmaps st) first (first :: pix') lo hi)
        as (Ht & Hs).
      rewrite Ht, Hs. apply Forall_app. split.
      * constructor; [apply Rfig|]. constructor; [apply Rbg|].
        apply Forall_app. split.
        -- rewrite paint_trace. apply Forall_forall. intros e He.
           apply in_map_iff in He. destruct He as (l & <- & Hl).
           pose proof (paint_layers_from (combine (resolve_cmaps st)
                         (first :: pix')) lo hi (alpha_of (first :: pix')))
             as Hall.
           rewrite Forall_forall in Hall.
           destruct (Hall l Hl) as (k & pa & Hin & Hk & Hlo & Hhi).
           apply (Rlayer l k); auto.
           apply in_combine_l in Hin. exact Hin.
        -- destruct (snd (paint _ _ _ _)); repeat constructor; assumption.
      * destruct (snd (paint _ _ _ _)); [|constructor].
        unfold save_events.
        destruct (fname_of fmt i zindex (resolve_channels st img));
          repeat constructor; auto.
Qed.

End Events.

Lemma collect_Forall {A B} (f : A -> option B) (P : B -> Prop) (l : list A) :
  Forall (fun a => match f a with Some b => P b | None => True end) l ->
  Forall P (collect f l).
Proof.
  induction 1 as [|a l Ha _ IH]; cbn; [constructor|].
  destruct (f a); [constructor|]; assumption.
Qed.

(** The trace and the outcome of [main] are those of its loop. *)
Lemma main_run (is_dir : string -> bool) (project : Readlif.LifFile)
    (lif : string) (indexes channels : option (list Z)) (zindex : Z)
    (cmaps : option (list string)) (lo hi : PyVal) (output : option string) :
  let r := loop project (output_fmt is_dir lif output) zindex lo hi
             {| v_channels := channels; v_cmaps := cmaps; v_channel := None |}
             match indexes with
             | None => Py.range (Readlif.num_images project)
             | Some l => l
             end in
  fst (main is_dir project lif indexes channels zindex cmaps lo hi output)
  = fst r
  /\ snd (main is_dir project lif indexes channels zindex cmaps lo hi output)
     = match snd r with Ok _ => Ok tt | Raise e => Raise e end.
Proof.
  cbv zeta. unfold main.
  destruct (loop _ _ _ _ _ _ _) as [t [st|e]]; cbn; [|split; reflexivity].
  now rewrite app_nil_r.
Qed.

Section RunEvents.

Variable project : Readlif.LifFile.
Variables (fmt : string) (zindex : Z) (lo hi : PyVal).

Lemma loop_events (R : event -> Prop) (cms : list string) :
  (forall i c, R (get_frame_call i zindex 0 c)) ->
  (forall line, R (print line)) ->
  (forall sz, R (figure sz 100)) ->
  (forall first, R (imshow (background_layer first))) ->
  (forall l k, In k cms -> dict_get LUT k = Some (cmap l) ->
               vmin l = lo -> vmax l = hi -> R (imshow l)) ->
  R axis_off ->
  R (subplots_adjust 0 1 1 0) ->
  (forall f, R (savefig f 1000 true)) ->
  R close ->
  forall (idx : list Z) (st : locals),
    resolve_cmaps st = cms ->
    Forall R (fst (loop project fmt zindex lo hi st idx)).
Proof.
  intros Rcall Rprint Rfig Rbg Rlayer Raxis Radj Rsave Rclose.
  induction idx as [|i rest IH]; intros st Hst; cbn [loop].
  - constructor.
  - rewrite fst_bind. apply Forall_app. split.
    + apply iteration_events; auto. rewrite Hst. exact Rlayer.
    + destruct (snd (iteration project fmt zindex lo hi st i)) as [st'|e] eqn:Hit;
        [|constructor].
      apply IH.
      destruct (Readlif.get_image project i) as [img|] eqn:Himg.
      * destruct (iteration_locals project fmt zindex lo hi st i Himg Hit)
          as (_ & H). now rewrite H.
      * rewrite iteration_no_image in Hit by assumption. discriminate.
Qed.

End RunEvents.

(** X7: every frame a run asks of the reader is of the one z index given
    and of time point 0. *)
Theorem X7_only_one_slice_is_read :
  forall (is_dir : string -> bool) (project : Readlif.LifFile)
         (lif : string) (indexes channels : option (list Z)) (zindex : Z)
         (cmaps : option (list string)) (lo hi : PyVal)
         (output : option string),
    Forall (fun zt => zt = (zindex, 0))
      (slices (fst (main is_dir project lif indexes channels zindex cmaps
                      lo hi output))).
Proof.
  intros is_dir project lif indexes channels zindex cmaps lo hi output.
  destruct (main_run is_dir project lif indexes channels zindex cmaps
              lo hi output) as (Ht & _).
  rewrite Ht. apply collect_Forall.
  apply (@loop_events project (output_fmt is_dir lif output) zindex lo hi
           (fun e => match slice_of e with
                     | Some zt => zt = (zindex, 0)
                     | None => True
                     end)
           (resolve_cmaps {| v_channels := channels; v_cmaps := cmaps;
                             v_channel := None |}));
    cbn; auto.
Qed.

Lemma LUT_maps_start_black (k : string) (m : colormap) :
  dict_get LUT k = Some m -> zero_colour m = Some "black".
Proof.
  unfold LUT. cbn [dict_get].
  repeat match goal with
         | |- context [String.eqb k ?s] => destruct (String.eqb k s)
         end;
    intros H; inversion H; reflexivity.
Qed.

(** X8: every layer of a run is shown in a colour map of [LUT], the
    background in the bright-field one, and so in a map whose zero end
    is black. *)
Theorem X8_every_layer_uses_a_LUT_map_from_black :
  forall (is_dir : string -> bool) (project : Readlif.LifFile)
         (lif : string) (indexes channels : option (list Z)) (zindex : Z)
         (cmaps : option (list string)) (lo hi : PyVal)
         (output : option string),
    Forall (fun l => (exists k, dict_get LUT k = Some (cmap l))
                     /\ zero_colour (cmap l) = Some "black")
      (layers (fst (main is_dir project lif indexes channels zindex cmaps
                      lo hi output))).
Proof.
  intros is_dir project lif indexes channels zindex cmaps lo hi output.
  destruct (main_run is_dir project lif indexes channels zindex cmaps
              lo hi output) as (Ht & _).
  rewrite Ht. apply collect_Forall.
  apply (@loop_events project (output_fmt is_dir lif output) zindex lo hi
           (fun e => match imshow_of e with
                     | Some l => (exists k, dict_get LUT k = Some (cmap l))
                                 /\ zero_colour (cmap l) = Some "black"
                     | None => True
                     end)
           (resolve_cmaps {| v_channels := channels; v_cmaps := cmaps;
                             v_channel := None |}));
    cbn; auto.
  - intros first. split; [now exists "bf"|reflexivity].
  - intros l k _ Hk _ _. split; [now exists k|].
    apply (LUT_maps_start_black k Hk).
Qed.

(** ** The outcome of a run *)

Lemma last_map_Some {A} (l : list A) (d : option A) :
  l <> [] -> last (map Some l) d <> None.
Proof.
  induction l as [|x l IH]; [contradiction|]. intros _.
  destruct l as [|y l]; [discriminate|].
  change (last (map Some (y :: l)) d <> None). apply IH. discriminate.
Qed.

(** After the inner loop [channel] is bound, unless there was no channel
    to loop over and it was unbound before. *)
Lemma extract_binds_channel (img : Readlif.Image) (i zindex : Z)
    (chans : list Z) (channel : option Z) :
  chans <> [] \/ channel <> None ->
  fst (snd (extract img i zindex chans channel [])) <> None.
Proof.
  intros H.
  destruct (extract_spec img i zindex chans channel)
    as (n & _ & _ & _ & _ & Hch).
  rewrite Hch. destruct chans as [|c cs].
  - cbn. destruct H as [H|H]; [contradiction|exact H].
  - rewrite firstn_cons. apply last_map_Some. discriminate.
Qed.

Lemma paint_raises (pairs : list (string * PixelArray)) (lo hi : PyVal)
    (a : Q) (e : exn) :
  snd (paint pairs lo hi a) = Raise e ->
  e = KeyError /\ exists k, In k (map fst pairs) /\ is_key k = false.
Proof.
  induction pairs as [|[k pa] rest IH]; cbn [paint]; [discriminate|].
  destruct (dict_get LUT k) as [m|] eqn:Hk.
  - unfold emit, bind. destruct (paint rest lo hi a) as [t r].
    cbn [snd] in *. intros H. destruct (IH H) as (He & k' & Hin & Hk').
    split; [exact He|]. exists k'. split; [now right|exact Hk'].
  - intros H. inversion H. split; [reflexivity|].
    exists k. split; [now left|]. unfold is_key. now rewrite Hk.
Qed.

Lemma map_fst_combine_incl {A B} (l : list A) (l' : list B) :
  incl (map fst (combine l l')) l.
Proof.
  revert l'. induction l as [|a l IH]; intros [|b l'] y Hy; cbn in Hy;
    try contradiction.
  destruct Hy as [<-|Hy]; [now left|right; exact (IH l' y Hy)].
Qed.

(** [str.format] fails in three ways. *)
Lemma format_raises_bounded (n : nat) :
  forall (fmt : string) (args : list string) (e : exn),
    (String.length fmt <= n)%nat ->
    Py.format fmt args = Raise e ->
    e = ValueError \/ e = IndexError \/ e = OutsideModel.
Proof.
  induction n as [|n IH]; intros fmt args e Hlen H.
  - destruct fmt; [discriminate|cbn in Hlen; lia].
  - destruct fmt as [|c rest]; [discriminate|].
    cbn [String.length] in Hlen. cbn [Py.format] in H.
    destruct (Ascii.eqb c "{").
    + destruct rest as [|d rest']; [inversion H; auto|].
      cbn [String.length] in Hlen.
      destruct (Ascii.eqb d "{").
      * destruct (Py.format rest' args) eqn:E; [discriminate|].
        inversion H; subst. apply (IH rest' args e); [lia|exact E].
      * destruct (Ascii.eqb d "}"); [|inversion H; auto].
        destruct args as [|a args']; [inversion H; auto|].
        destruct (Py.format rest' args') eqn:E; [discriminate|].
        inversion H; subst. apply (IH rest' args' e); [lia|exact E].
    + destruct (Ascii.eqb c "}").
      * destruct rest as [|d rest']; [inversion H; auto|].
        cbn [String.length] in Hlen.
        destruct (Ascii.eqb d "}"); [|inversion H; auto].
        destruct (Py.format rest' args) eqn:E; [discriminate|].
        inversion H; subst. apply (IH rest' args e); [lia|exact E].
      * destruct (Py.format rest args) eqn:E; [discriminate|].
        inversion H; subst. apply (IH rest args e); [lia|exact E].
Qed.

Lemma fname_of_raises (fmt : string) (i zindex : Z) (chans : list Z) (e : exn) :
  fname_of fmt i zindex chans = Raise e ->
  e = ValueError \/ e = IndexError \/ e = OutsideModel.
Proof.
  unfold fname_of.
  destruct (Py.format fmt _) as [_fname|e'] eqn:E.
  - unfold Pathlib.with_suffix_png.
    destruct (String.eqb _ ""); intros H; inversion H. now left.
  - intros H; inversion H; subst.
    apply (format_raises_bounded (n := String.length fmt) fmt _ (le_n _) E).
Qed.

Section Outcomes.

Variable project : Readlif.LifFile.
Variables (fmt : string) (zindex : Z) (lo hi : PyVal).

(** How an iteration ends: normally, with [channels] and [channel] bound
    and [cmaps] as it resolves before; or with one of four failures,
    each with its cause. *)
Lemma iteration_cases (st : locals) (i : Z) :
  match snd (iteration project fmt zindex lo hi st i) with
  | Ok st' =>
      exists img, Readlif.get_image project i = Some img
        /\ v_channels st' = Some (resolve_channels st img)
        /\ resolve_cmaps st' = resolve_cmaps st
        /\ v_channel st' <> None
  | Raise e =>
      (e = CollaboratorError /\ Readlif.get_image project i = None)
      \/ (e = UnboundLocalError /\ v_channel st = None
          /\ exists img, Readlif.get_image project i = Some img
                         /\ resolve_channels st img = [])
      \/ (e = KeyError
          /\ exists k, In k (resolve_cmaps st) /\ is_key k = false)
      \/ (exists chans, fname_of fmt i zindex chans = Raise e)
  end.
Proof.
  destruct (Readlif.get_image project i) as [img|] eqn:Himg.
  2:{ rewrite iteration_no_image by assumption. left. now split. }
  rewrite (iteration_outcome project fmt zindex lo hi st i Himg). cbv zeta.
  pose proof (@extract_binds_channel img i zindex (resolve_channels st img)
                (v_channel st)) as Hbind.
  destruct (extract_spec img i zindex (resolve_channels st img) (v_channel st))
    as (n & _ & Hpix & _ & _ & _).
  destruct (snd (snd (extract img i zindex (resolve_channels st img)
                        (v_channel st) []))) as [|first pix'] eqn:Epix.
  - destruct (fst (snd (extract img i zindex (resolve_channels st img)
                          (v_channel st) []))) as [c|] eqn:Ech.
    + exists img. cbn. repeat split; auto. discriminate.
    + right. left. split; [reflexivity|].
      destruct (v_channel st) as [c0|] eqn:Hc0.
      * exfalso. apply Hbind; [right; discriminate|reflexivity].
      * split; [reflexivity|]. exists img. split; [reflexivity|].
        destruct (resolve_channels st img) as [|c cs] eqn:Ecs; [reflexivity|].
        exfalso. apply Hbind; [left; discriminate|reflexivity].
  - destruct (composite_trace (resolve_cmaps st) first (first :: pix') lo hi)
      as (_ & Hs).
    rewrite Hs.
    destruct (snd (paint _ _ _ _)) as [[]|e] eqn:Ep.
    + destruct (fname_of fmt i zindex (resolve_channels st img)) as [f|e] eqn:Ef.
      * exists img. cbn. repeat split; auto.
        apply Hbind. left. intros E. rewrite E in Hpix.
        destruct n; discriminate.
      * right. right. right. now exists (resolve_channels st img).
    + right. right. left. destruct (paint_raises _ _ _ _ Ep) as (He & k & Hin & Hk).
      split; [exact He|]. exists k. split; [|exact Hk].
      apply (map_fst_combine_incl _ _ _ Hin).
Qed.

(** A property of the locals that every iteration keeps, save for
    failures of a given kind, holds at the end of the loop, save for
    such a failure. *)
Lemma loop_outcome (P : locals -> Prop) (Q : exn -> Prop) (idx : list Z) :
  (forall st i, In i idx -> P st ->
     match snd (iteration project fmt zindex lo hi st i) with
     | Ok st' => P st'
     | Raise e => Q e
     end) ->
  forall st, P st ->
    match snd (loop project fmt zindex lo hi st idx) with
    | Ok st' => P st'
    | Raise e => Q e
    end.
Proof.
  induction idx as [|i rest IH]; intros Hstep st Hst; cbn [loop].
  - exact Hst.
  - rewrite snd_bind.
    pose proof (Hstep st i (or_introl eq_refl) Hst) as Hi.
    destruct (snd (iteration project fmt zindex lo hi st i)) as [st'|e];
      [|exact Hi].
    apply IH; [|exact Hi].
    intros st0 j Hj. apply Hstep. now right.
Qed.

End Outcomes.



(** A run in which [channels] was not given is the run given the channel
    range of the first processed image. *)
Lemma main_resolved_channels (is_dir : string -> bool)
    (project : Readlif.LifFile) (lif : string)
    (indexes channels : option (list Z)) (zindex : Z)
    (cmaps : option (list string)) (lo hi : PyVal) (output : option string)
    (i0 : Z) (rest : list Z) (img0 : Readlif.Image) :
  match indexes with
  | None => Py.range (Readlif.num_images project)
  | Some l => l
  end = i0 :: rest ->
  Readlif.get_image project i0 = Some img0 ->
  main is_dir project lif indexes channels zindex cmaps lo hi output
  = main is_dir project lif indexes
      (Some match channels with
            | None => Py.range (Readlif.channels img0)
            | Some cs => cs
            end) zindex cmaps lo hi output.
Proof.
  intros Hidx Himg. unfold main. rewrite Hidx.
  match goal with
  | |- bind (loop _ _ _ _ _ ?s1 _) _ = bind (loop _ _ _ _ _ ?s2 _) _ =>
      assert (Halike : alike project (i0 :: rest) s1 s2)
  end.
  { split; [reflexivity|]. split; [reflexivity|].
    intros i r img Hi Hg. inversion Hi; subst i r.
    rewrite Himg in Hg. inversion Hg; subst img. reflexivity. }
  destruct (loop_alike (output_fmt is_dir lif output) zindex lo hi Halike)
    as (Ht & Hr).
  destruct (loop project _ _ _ _ _ (i0 :: rest)) as [t1 [s1|e1]],
           (loop project _ _ _ _ _ (i0 :: rest)) as [t2 [s2|e2]];
    cbn [fst snd] in *; try contradiction; subst; reflexivity.
Qed.



(** X10: a run stops with [UnboundLocalError] only if the list of
    channels is empty at the first processed image: when it is not, be
    it given or read off that image, no image later on, whatever it
    holds, can make the warning fail. *)
Theorem X10_UnboundLocalError_needs_an_empty_channel_list :
  forall (is_dir : string -> bool) (project : Readlif.LifFile)
         (lif : string) (indexes channels : option (list Z)) (zindex : Z)
         (cmaps : option (list string)) (lo hi : PyVal)
         (output : option string) (i0 : Z) (rest : list Z)
         (img0 : Readlif.Image),
    match indexes with
    | None => Py.range (Readlif.num_images project)
    | Some l => l
    end = i0 :: rest ->
    Readlif.get_image project i0 = Some img0 ->
    match channels with
    | None => Py.range (Readlif.channels img0)
    | Some cs => cs
    end <> [] ->
    snd (main is_dir project lif indexes channels zindex cmaps lo hi output)
    <> Raise UnboundLocalError.
Proof.
  intros is_dir project lif indexes channels zindex cmaps lo hi output
    i0 rest img0 Hidx Himg Hne.
  rewrite (@main_resolved_channels is_dir project lif indexes channels zindex
             cmaps lo hi output i0 rest img0 Hidx Himg).
  set (cs := match channels with
             | None => Py.range (Readlif.channels img0)
             | Some cs => cs
             end) in *.
  destruct (main_run is_dir project lif indexes (Some cs) zindex cmaps
              lo hi output) as (_ & Hs).
  rewrite Hs.
  match goal with
  | |- context [loop ?p ?f ?z ?l ?h ?s ?i] =>
      pose proof (@loop_outcome p f z l h
                    (fun st => v_channels st = Some cs)
                    (fun e => e <> UnboundLocalError) i) as H;
      destruct (snd (loop p f z l h s i)) as [st'|e] eqn:E
  end; [discriminate|].
  intros He. inversion He; subst e.
  match type of H with
  | ?A -> _ => assert (Hstep : A)
  end.
  { intros st i _ Hst.
    pose proof (iteration_cases project (output_fmt is_dir lif output) zindex
                  lo hi st i) as Hc.
    assert (Hres : forall img, resolve_channels st img = cs).
    { intros img. unfold resolve_channels. now rewrite Hst. }
    destruct (snd (iteration _ _ _ _ _ st i)) as [st'|e].
    - destruct Hc as (img & _ & Hch & _). now rewrite Hch, Hres.
    - destruct Hc as [(-> & _)|[(_ & _ & img & _ & He')|[(-> & _)|(chans & Hf)]]];
        try discriminate.
      + rewrite Hres in He'. contradiction.
      + destruct (fname_of_raises _ _ _ _ Hf) as [->|[->| ->]]; discriminate. }
  specialize (H Hstep {| v_channels := Some cs; v_cmaps := cmaps;
                         v_channel := None |} eq_refl).
  rewrite E in H. now apply H.
Qed.

Lemma X10_UnboundLocalError_witness :
  snd (main no_dir (sample_project [2; 0]) "project.lif" None None 0 None
         (PyInt 0) (PyInt 4095) None)
  <> Raise UnboundLocalError.
Proof.
  apply (@X10_UnboundLocalError_needs_an_empty_channel_list no_dir
           (sample_project [2; 0]) "project.lif" None None 0 None (PyInt 0)
           (PyInt 4095) None 0 [1] (sample_image 2)).
  - reflexivity.
  - reflexivity.
  - discriminate.
Defined.





(** ** Files, figures and printed lines *)

Lemma collect_map_none {A B C} (f : B -> option C) (g : A -> B) (l : list A) :
  (forall x, f (g x) = None) -> collect f (map g l) = [].
Proof.
  intros H. induction l as [|x l IH]; cbn; [reflexivity|].
  now rewrite H.
Qed.

Section Summary.

Variable project : Readlif.LifFile.
Variables (fmt : string) (zindex : Z) (lo hi : PyVal).

(** The three ways an iteration can go: it fails, having saved and
    printed nothing and opened at most one figure; it skips the image
    with one warning; or it saves one file, reports it, and closes the
    one figure it opened. *)
Lemma iteration_summary (st : locals) (i : Z) :
  let t := fst (iteration project fmt zindex lo hi st i) in
  let r := snd (iteration project fmt zindex lo hi st i) in
  (saved t = [] /\ closes t = [] /\ printed t = []
   /\ (List.length (figures t) <= 1)%nat /\ exists e, r = Raise e)
  \/ (exists c, saved t = [] /\ closes t = [] /\ figures t = []
                /\ printed t = [warning c i] /\ exists st', r = Ok st')
  \/ (exists f sz, saved t = [f] /\ closes t = [tt] /\ figures t = [sz]
                   /\ printed t = ["> saved: " ++ f] /\ exists st', r = Ok st').
Proof.
  cbv zeta.
  destruct (Readlif.get_image project i) as [img|] eqn:Himg.
  2:{ rewrite iteration_no_image by assumption. left. cbn.
      repeat split; auto. now exists CollaboratorError. }
  rewrite (iteration_trace project fmt zindex lo hi st i Himg),
          (iteration_outcome project fmt zindex lo hi st i Himg).
  cbv zeta.
  destruct (extract_calls img i zindex (resolve_channels st img)
              (v_channel st)) as (called & Hc & _).
  rewrite Hc. unfold saved, closes, printed, figures.
  rewrite !collect_app, !collect_map_none by reflexivity. cbn [app].
  destruct (snd (snd (extract img i zindex (resolve_channels st img)
                        (v_channel st) []))) as [|first pix'].
  - destruct (fst (snd (extract img i zindex (resolve_channels st img)
                          (v_channel st) []))) as [c|].
    + right. left. exists c. cbn. repeat split; auto. eauto.
    + left. cbn. repeat split; auto. eauto.
  - destruct (composite_trace (resolve_cmaps st) first (first :: pix') lo hi)
      as (Ht & Hs).
    rewrite Ht, Hs, paint_trace.
    assert (Hnone : forall (C : Type) (f : event -> option C),
               (forall l, f (imshow l) = None) ->
               collect f (map imshow
                            (layers (fst (paint (combine (resolve_cmaps st)
                                                   (first :: pix')) lo hi
                                            (alpha_of (first :: pix'))))))
               = []).
    { intros C f Hf. now apply collect_map_none. }
    destruct (snd (paint _ _ _ _)) as [[]|e].
    + unfold save_events.
      destruct (fname_of fmt i zindex (resolve_channels st img)) as [f|e].
      * right. right. exists f, (fig_size first).
        rewrite !collect_app. cbn [collect figure_of savefig_of print_of
                                   close_of].
        rewrite !collect_app, !Hnone by reflexivity. cbn.
        repeat split; auto. eauto.
      * left.
        rewrite !collect_app. cbn [collect figure_of savefig_of print_of
                                   close_of].
        rewrite !collect_app, !Hnone by reflexivity. cbn.
        repeat split; auto. eauto.
    + left.
      rewrite !collect_app. cbn [collect figure_of savefig_of print_of
                                 close_of].
      rewrite !collect_app, !Hnone by reflexivity. cbn.
      repeat split; auto. eauto.
Qed.

Lemma loop_summary (idx : list Z) :
  forall st : locals,
    let t := fst (loop project fmt zindex lo hi st idx) in
    let r := snd (loop project fmt zindex lo hi st idx) in
    (forall f, In f (saved t) -> In ("> saved: " ++ f) (printed t))
    /\ List.length (closes t) = List.length (saved t)
    /\ (List.length (saved t) <= List.length (figures t)
        <= List.length (saved t) + 1)%nat
    /\ (forall st', r = Ok st' ->
          List.length (printed t) = List.length idx
          /\ List.length (figures t) = List.length (saved t)
          /\ (List.length (saved t) <= List.length idx)%nat).
Proof.
  induction idx as [|i rest IH]; intros st; cbv zeta; cbn [loop].
  - cbn. repeat split; auto; try lia; try contradiction.
  - rewrite fst_bind, snd_bind.
    pose proof (iteration_summary st i) as Hsum. cbv zeta in Hsum.
    unfold saved, closes, printed, figures in *.
    rewrite !collect_app, !length_app.
    destruct Hsum as [(Hs & Hc & Hp & Hf & e & Hr)
                     |[(c & Hs & Hc & Hf & Hp & st' & Hr)
                      |(f & sz & Hs & Hc & Hf & Hp & st' & Hr)]];
      rewrite Hr, Hs, Hc, Hp; cbn [app List.length].
    + cbn [collect List.length Nat.add].
      split; [intros f []|]. split; [reflexivity|]. split; [lia|].
      intros st' H. discriminate.
    + destruct (IH st') as (I1 & I2 & I3 & I4). rewrite Hf.
      cbn [collect app List.length Nat.add].
      split; [intros f Hin; right; now apply I1|].
      split; [exact I2|]. split; [exact I3|].
      intros st'' H. destruct (I4 st'' H) as (? & ? & ?).
      repeat split; lia.
    + destruct (IH st') as (I1 & I2 & I3 & I4). rewrite Hf.
      cbn [collect app List.length Nat.add].
      split; [intros g [<-|Hin]; [now left|right; now apply I1]|].
      split; [lia|]. split; [lia|].
      intros st'' H. destruct (I4 st'' H) as (? & ? & ?).
      repeat split; lia.
Qed.

End Summary.

(** X13: in a run that returns, every image index has left exactly one
    printed line, a warning or the report of a saved file, and every
    figure opened was saved to a file and closed. *)
Theorem X13_returning_runs_account_for_every_image :
  forall (is_dir : string -> bool) (project : Readlif.LifFile)
         (lif : string) (indexes channels : option (list Z)) (zindex : Z)
         (cmaps : option (list string)) (lo hi : PyVal)
         (output : option string),
    let run := main is_dir project lif indexes channels zindex cmaps lo hi
                 output in
    let idx := match indexes with
               | None => Py.range (Readlif.num_images project)
               | Some l => l
               end in
    snd run = Ok tt ->
    List.length (printed (fst run)) = List.length idx
    /\ List.length (figures (fst run)) = List.length (saved (fst run))
    /\ List.length (closes (fst run)) = List.length (saved (fst run))
    /\ (List.length (saved (fst run)) <= List.length idx)%nat.
Proof.
  intros is_dir project lif indexes channels zindex cmaps lo hi output.
  cbv zeta.
  destruct (main_run is_dir project lif indexes channels zindex cmaps
              lo hi output) as (Ht & Hs).
  rewrite Ht, Hs. clear Ht Hs.
  match goal with
  | |- context [loop ?p ?f ?z ?l ?h ?s ?i] =>
      pose proof (loop_summary p f z l h i s) as H; cbv zeta in H;
      destruct H as (_ & H2 & _ & H4);
      destruct (snd (loop p f z l h s i)) as [st'|e]; [|discriminate]
  end.
  intros _. destruct (H4 st' eq_refl) as (? & ? & ?). repeat split; auto.
Qed.

Lemma X13_returning_runs_witness :
  let run := main no_dir (sample_project [2; 3]) "project.lif" None (Some [2])
               0 None (PyInt 0) (PyInt 4095) None in
  List.length (printed (fst run)) = List.length (Py.range 2)
  /\ List.length (figures (fst run)) = List.length (saved (fst run))
  /\ List.length (closes (fst run)) = List.length (saved (fst run))
  /\ (List.length (saved (fst run)) <= List.length (Py.range 2))%nat.
Proof.
  apply (@X13_returning_runs_account_for_every_image no_dir
           (sample_project [2; 3]) "project.lif" None (Some [2]) 0 None
           (PyInt 0) (PyInt 4095) None).
  reflexivity.
Defined.

(** X14: in every run, failed or not, each file saved is reported on a
    printed line and its figure closed, and at most one figure, that of
    the image at which the run failed, is left open. *)
Theorem X14_saved_files_are_reported_and_closed :
  forall (is_dir : string -> bool) (project : Readlif.LifFile)
         (lif : string) (indexes channels : option (list Z)) (zindex : Z)
         (cmaps : option (list string)) (lo hi : PyVal)
         (output : option string),
    let t := fst (main is_dir project lif indexes channels zindex cmaps lo hi
                    output) in
    Forall (fun f => In ("> saved: " ++ f) (printed t)) (saved t)
    /\ List.length (closes t) = List.length (saved t)
    /\ (List.length (closes t) <= List.length (figures t)
        <= List.length (closes t) + 1)%nat.
Proof.
  intros is_dir project lif indexes channels zindex cmaps lo hi output.
  cbv zeta.
  destruct (main_run is_dir project lif indexes channels zindex cmaps
              lo hi output) as (Ht & _).
  rewrite Ht. clear Ht.
  match goal with
  | |- context [loop ?p ?f ?z ?l ?h ?s ?i] =>
      pose proof (loop_summary p f z l h i s) as H; cbv zeta in H;
      destruct H as (H1 & H2 & H3 & _)
  end.
  split; [apply Forall_forall; exact H1|]. split; [exact H2|].
  rewrite H2. exact H3.
Qed.

(** ** Runs over more indexes, and over other metadata *)

Lemma bind_assoc {A B C} (m : M A) (f : A -> M B) (g : B -> M C) :
  bind (bind m f) g = bind m (fun x => bind (f x) g).
Proof.
  destruct m as [t [a|e]]; cbn; [|reflexivity].
  destruct (f a) as [t1 [b|e1]]; cbn; [|reflexivity].
  destruct (g b) as [t2 r]. now rewrite app_assoc.
Qed.

Lemma loop_app (project : Readlif.LifFile) (fmt : string) (zindex : Z)
    (lo hi : PyVal) (a b : list Z) :
  forall st : locals,
    loop project fmt zindex lo hi st (a ++ b)
    = bind (loop project fmt zindex lo hi st a)
        (fun st' => loop project fmt zindex lo hi st' b).
Proof.
  induction a as [|i a IH]; intros st; cbn [app loop].
  - unfold ret, bind. now destruct (loop project fmt zindex lo hi st b).
  - rewrite bind_assoc.
    destruct (iteration project fmt zindex lo hi st i) as [t [st'|e]];
      [|reflexivity].
    unfold bind at 1 3. now rewrite IH.
Qed.

(** X15: indexes added at the end of the list leave what is done for the
    earlier ones as it is: the calls of the shorter run open the calls
    of the longer one, and a failure of the shorter run is the failure
    of the longer one, with nothing done after it. *)
Theorem X15_later_indexes_do_not_change_earlier_ones :
  forall (is_dir : string -> bool) (project : Readlif.LifFile)
         (lif : string) (a b : list Z) (channels : option (list Z))
         (zindex : Z) (cmaps : option (list string)) (lo hi : PyVal)
         (output : option string),
    (exists t', fst (main is_dir project lif (Some (a ++ b)%list) channels zindex
                       cmaps lo hi output)
                = (fst (main is_dir project lif (Some a) channels zindex
                          cmaps lo hi output) ++ t')%list)
    /\ (snd (main is_dir project lif (Some a) channels zindex cmaps lo hi
               output) = Ok tt
        \/ main is_dir project lif (Some (a ++ b)%list) channels zindex cmaps lo hi
             output
           = main is_dir project lif (Some a) channels zindex cmaps lo hi
               output).
Proof.
  intros is_dir project lif a b channels zindex cmaps lo hi output.
  unfold main. rewrite loop_app.
  destruct (loop project (output_fmt is_dir lif output) zindex lo hi _ a)
    as [t [st'|e]].
  - cbn [bind].
    destruct (loop project (output_fmt is_dir lif output) zindex lo hi st' b)
      as [t2 [st2|e2]]; cbn; rewrite !app_nil_r;
      (split; [now exists t2|now left]).
  - cbn. split; [exists []; now rewrite app_nil_r|now right].
Qed.

Lemma extract_same_frames (a b : Readlif.Image) (i zindex : Z) :
  (forall z t c, Readlif.get_frame a z t c = Readlif.get_frame b z t c) ->
  forall (chans : list Z) (channel : option Z) (acc : list PixelArray),
    extract a i zindex chans channel acc = extract b i zindex chans channel acc.
Proof.
  intros H. induction chans as [|c rest IH]; intros channel acc;
    cbn [extract]; [reflexivity|].
  rewrite (H zindex 0 c).
  destruct (Readlif.get_frame b zindex 0 c); [|reflexivity].
  now rewrite IH.
Qed.

(** X16: once [channels] is given, the channel counts that the images
    report are never read: two projects with the same images and frames
    give the same run, whatever counts their metadata hold. *)
Theorem X16_given_channels_override_the_metadata :
  forall (is_dir : string -> bool) (p1 p2 : Readlif.LifFile)
         (lif : string) (indexes : option (list Z)) (cs : list Z)
         (zindex : Z) (cmaps : option (list string)) (lo hi : PyVal)
         (output : option string),
    same_frames p1 p2 ->
    main is_dir p1 lif indexes (Some cs) zindex cmaps lo hi output
    = main is_dir p2 lif indexes (Some cs) zindex cmaps lo hi output.
Proof.
  intros is_dir p1 p2 lif indexes cs zindex cmaps lo hi output (Hn & Hsame).
  unfold main. rewrite Hn.
  set (idx := match indexes with
              | None => Py.range (Readlif.num_images p2)
              | Some l => l
              end).
  set (fmt := output_fmt is_dir lif output).
  assert (Hloop : forall (l : list Z) (st : locals),
             v_channels st = Some cs ->
             loop p1 fmt zindex lo hi st l = loop p2 fmt zindex lo hi st l).
  { induction l as [|i l IH]; intros st Hst; cbn [loop]; [reflexivity|].
    assert (Hit : iteration p1 fmt zindex lo hi st i
                  = iteration p2 fmt zindex lo hi st i).
    { unfold iteration. specialize (Hsame i).
      destruct (Readlif.get_image p1 i) as [a|],
               (Readlif.get_image p2 i) as [b|];
        try contradiction; [|reflexivity].
      unfold resolve_channels. rewrite Hst.
      now rewrite (extract_same_frames a b i zindex Hsame). }
    rewrite Hit.
    destruct (iteration p2 fmt zindex lo hi st i) as [t [st'|e]] eqn:E;
      [|reflexivity].
    cbn [bind]. rewrite IH; [reflexivity|].
    destruct (Readlif.get_image p2 i) as [b|] eqn:Hb.
    - assert (Hs : snd (iteration p2 fmt zindex lo hi st i) = Ok st')
        by now rewrite E.
      destruct (iteration_locals p2 fmt zindex lo hi st i Hb Hs) as (H & _).
      rewrite H. unfold resolve_channels. now rewrite Hst.
    - rewrite iteration_no_image in E by assumption. discriminate. }
  now rewrite Hloop.
Qed.

Lemma X16_given_channels_witness :
  main no_dir (sample_project [2; 3]) "project.lif" None (Some [0; 1]) 0 None
    (PyInt 0) (PyInt 4095) None
  = main no_dir
      {| Readlif.num_images := 2;
         Readlif.get_image := fun i =>
           option_map (fun img => {| Readlif.channels := 7;
                                     Readlif.get_frame := Readlif.get_frame img |})
             (Readlif.get_image (sample_project [2; 3]) i) |}
      "project.lif" None (Some [0; 1]) 0 None (PyInt 0) (PyInt 4095) None.
Proof.
  apply (@X16_given_channels_override_the_metadata no_dir
           (sample_project [2; 3])).
  split; [reflexivity|].
  intros i. cbn [Readlif.get_image].
  destruct (Readlif.get_image (sample_project [2; 3]) i); cbn; auto.
Defined.

(** X17: when the first channel asked for exists in none of the images,
    the run fetches that one channel from each image, prints one warning
    per image, naming the channel and the image, opens no figure, saves
    nothing and returns normally. *)
Theorem X17_a_run_of_skipped_images :
  forall (is_dir : string -> bool) (project : Readlif.LifFile)
         (lif : string) (idx : list Z) (c : Z) (cs : list Z) (zindex : Z)
         (cmaps : option (list string)) (lo hi : PyVal)
         (output : option string),
    Forall (fun i => exists img, Readlif.get_image project i = Some img
                                 /\ Readlif.get_frame img zindex 0 c = None)
      idx ->
    main is_dir project lif (Some idx) (Some (c :: cs)) zindex cmaps lo hi
      output
    = (flat_map (fun i => [get_frame_call i zindex 0 c; print (warning c i)])
         idx, Ok tt).
Proof.
  intros is_dir project lif idx c cs zindex cmaps lo hi output Hall.
  unfold main.
  set (fmt := output_fmt is_dir lif output).
  assert (Hloop : forall (l : list Z) (ch : option Z),
             Forall (fun i => exists img,
                         Readlif.get_image project i = Some img
                         /\ Readlif.get_frame img zindex 0 c = None) l ->
             exists st',
               loop project fmt zindex lo hi
                 {| v_channels := Some (c :: cs); v_cmaps := cmaps;
                    v_channel := ch |} l
               = (flat_map (fun i => [get_frame_call i zindex 0 c;
                                      print (warning c i)]) l, Ok st')).
  { induction l as [|i l IH]; intros ch Hl; cbn [loop flat_map].
    - eexists. reflexivity.
    - inversion Hl as [|? ? (img & Himg & Hc) Hl']; subst.
      rewrite (@iteration_first_fetch_fails project fmt zindex lo hi
                 {| v_channels := Some (c :: cs); v_cmaps := cmaps;
                    v_channel := ch |} i img c cs Himg eq_refl Hc).
      cbn [bind v_cmaps].
      destruct (IH (Some c) Hl') as (st' & ->). eexists. reflexivity. }
  destruct (Hloop idx None Hall) as (st' & ->). cbn. now rewrite app_nil_r.
Qed.

Lemma X17_skipped_images_witness :
  main no_dir (sample_project [2; 3]) "project.lif" (Some [0; 1])
    (Some [5; 0]) 0 None (PyInt 0) (PyInt 4095) None
  = (flat_map (fun i => [get_frame_call i 0 0 5; print (warning 5 i)]) [0; 1],
     Ok tt).
Proof.
  apply (@X17_a_run_of_skipped_images no_dir (sample_project [2; 3])
           "project.lif" [0; 1] 5 [0] 0 None (PyInt 0) (PyInt 4095) None).
  repeat constructor.
  - exists (sample_image 2). split; reflexivity.
  - exists (sample_image 3). split; reflexivity.
Defined.

(** A run given a non-empty list of channels never ends in
    [UnboundLocalError], whatever the indexes. *)
Lemma given_channels_bind_channel (is_dir : string -> bool)
    (project : Readlif.LifFile) (lif : string) (indexes : option (list Z))
    (c : Z) (cs : list Z) (zindex : Z) (cmaps : option (list string))
    (lo hi : PyVal) (output : option string) :
  snd (main is_dir project lif indexes (Some (c :: cs)) zindex cmaps lo hi
         output)
  <> Raise UnboundLocalError.
Proof.
  destruct (main_run is_dir project lif indexes (Some (c :: cs)) zindex cmaps
              lo hi output) as (_ & Hs).
  rewrite Hs. clear Hs.
  pose proof (@loop_outcome project (output_fmt is_dir lif output) zindex lo hi
                (fun st => v_channels st = Some (c :: cs))
                (fun e => e <> UnboundLocalError)
                match indexes with
                | None => Py.range (Readlif.num_images project)
                | Some l => l
                end) as H.
  match type of H with
  | ?A -> _ => assert (Hstep : A)
  end.
  { intros st i _ Hst.
    pose proof (iteration_cases project (output_fmt is_dir lif output) zindex
                  lo hi st i) as Hc.
    assert (Hres : forall img, resolve_channels st img = c :: cs).
    { intros img. unfold resolve_channels. now rewrite Hst. }
    destruct (snd (iteration _ _ _ _ _ st i)) as [st'|e].
    - destruct Hc as (img & _ & Hch & _). now rewrite Hch, Hres.
    - destruct Hc as [(-> & _)|[(_ & _ & img & _ & He')|[(-> & _)|(chans & Hf)]]];
        try discriminate.
      + rewrite Hres in He'. discriminate.
      + destruct (fname_of_raises _ _ _ _ Hf) as [->|[->| ->]]; discriminate. }
  specialize (H Hstep {| v_channels := Some (c :: cs); v_cmaps := cmaps;
                         v_channel := None |} eq_refl).
  destruct (snd (loop _ _ _ _ _ _ _)) as [st'|e]; [discriminate|].
  intros He. inversion He; subst e. now apply H.
Qed.

(** X18: [--channels] takes at least one value, so a run started from the
    command line with [--channels] never ends in [UnboundLocalError],
    whatever the images report or hold. *)
Theorem X18_channels_on_the_command_line_bind_channel :
  forall (is_dir : string -> bool) (project : Readlif.LifFile)
         (a : argv) (run : M unit),
    maincli is_dir project a = Some run ->
    a_channels a <> None ->
    snd run <> Raise UnboundLocalError.
Proof.
  intros is_dir project a run Hrun Hch. unfold maincli in Hrun.
  destruct (parse_args a) as [cmd|] eqn:Hparse; [|discriminate].
  inversion Hrun; subst run; clear Hrun.
  unfold parse_args in Hparse.
  match type of Hparse with
  | context [if ?b then _ else _] => destruct b eqn:Hb
  end; [|discriminate].
  apply andb_prop in Hb. destruct Hb as [Hb _].
  apply andb_prop in Hb. destruct Hb as [Hb _].
  apply andb_prop in Hb. destruct Hb as [_ Hne].
  destruct (a_channels a) as [[|c cs]|] eqn:Ha;
    [discriminate|clear Hne|contradiction].
  destruct (a_low_threshold a), (a_high_threshold a);
    cbn in Hparse; inversion Hparse; subst cmd;
    cbn [lif indexes channels zindex cmaps low_threshold high_threshold output];
    apply given_channels_bind_channel.
Qed.

Lemma X18_channels_witness :
  snd (main no_dir (sample_project [0; 2]) "project.lif" None (Some [0]) 0
         None (PyInt 0) (PyInt 4095) None)
  <> Raise UnboundLocalError.
Proof.
  apply (@X18_channels_on_the_command_line_bind_channel no_dir
           (sample_project [0; 2])
           {| a_lif := "project.lif"; a_indexes := None;
              a_channels := Some [0]; a_zindex := None; a_lut := None;
              a_low_threshold := None; a_high_threshold := None;
              a_output := None |} _ eq_refl).
  discriminate.
Defined.

(** X19: when every requested channel of an image can be fetched, every
    one is fetched, once and in the order listed, the pixel arrays are
    their frames in that order, and [channel] is left at the last one. *)
Theorem X19_complete_extraction :
  forall (img : Readlif.Image) (i zindex : Z) (chans : list Z)
         (channel : option Z),
    Forall (fun c => Readlif.get_frame img zindex 0 c <> None) chans ->
    fst (extract img i zindex chans channel [])
    = map (get_frame_call i zindex 0) chans
    /\ map Some (snd (snd (extract img i zindex chans channel [])))
       = map (Readlif.get_frame img zindex 0) chans
    /\ fst (snd (extract img i zindex chans channel []))
       = last (map Some chans) channel.
Proof.
  intros img i zindex chans channel Hall.
  destruct (extract_spec img i zindex chans channel)
    as (n & Hn & Hpix & Hstop & Hcalls & Hch).
  assert (En : n = List.length chans).
  { destruct Hstop as [E|(c & Hc & Hfail)]; [exact E|].
    rewrite Forall_forall in Hall.
    exfalso. apply (Hall c); [|exact Hfail].
    eapply nth_error_In. exact Hc. }
  subst n.
  rewrite Hcalls, Hpix, Hch.
  rewrite firstn_all2 by lia. rewrite firstn_all. auto.
Qed.

Lemma X19_complete_extraction_witness :
  fst (extract (sample_image 3) 0 0 [2; 0] None [])
  = map (get_frame_call 0 0 0) [2; 0]
  /\ map Some (snd (snd (extract (sample_image 3) 0 0 [2; 0] None [])))
     = map (Readlif.get_frame (sample_image 3) 0 0) [2; 0]
  /\ fst (snd (extract (sample_image 3) 0 0 [2; 0] None []))
     = last (map Some [2; 0]) None.
Proof.
  apply (@X19_complete_extraction (sample_image 3) 0 0 [2; 0] None).
  repeat constructor; discriminate.
Defined.
